(** * notion2hugo: the markdown styler, path sanitising and property parsing

    A shallow embedding of the pure parts of
    [src/notion2hugo/exporter.py] and [src/notion2hugo/provider.py],
    and the properties of them that the specification states.

    Python [str] values are modelled by [string]: a sequence of
    characters whose code points are below 256.  The operations of
    [str] that the code uses ([replace], [lower], [strip], [split],
    [join], [in], [startswith], slicing, [*]) are written out below with
    the behaviour CPython has on such strings. *)

From Stdlib Require Import Bool Arith ZArith List Ascii String DecimalString Lia.
Import ListNotations.

Set Warnings "-register-all".

Local Open Scope list_scope.
Local Open Scope string_scope.

(** ** Characters *)

(** [ord(c)] *)
Definition ord (c : ascii) : nat := nat_of_ascii c.

Definition between (lo hi : nat) (c : ascii) : bool :=
  ((lo <=? ord c) && (ord c <=? hi))%nat.

Definition ch_nl : ascii := "010"%char.
Definition ch_dquote : ascii := "034"%char.
Definition ch_backslash : ascii := "092"%char.

Definition str1 (c : ascii) : string := String c EmptyString.

Definition nl : string := str1 ch_nl.
Definition dquote : string := str1 ch_dquote.

(** ** The operations of Python's [str] *)

Module PyStr.

Fixpoint map (f : ascii -> ascii) (s : string) : string :=
  match s with
  | EmptyString => EmptyString
  | String c s' => String (f c) (map f s')
  end.

Fixpoint filter (p : ascii -> bool) (s : string) : string :=
  match s with
  | EmptyString => EmptyString
  | String c s' => if p c then String c (filter p s') else filter p s'
  end.

Fixpoint forallb (p : ascii -> bool) (s : string) : bool :=
  match s with
  | EmptyString => true
  | String c s' => p c && forallb p s'
  end.

Fixpoint count (p : ascii -> bool) (s : string) : nat :=
  match s with
  | EmptyString => 0
  | String c s' => (if p c then 1 else 0) + count p s'
  end.

(** [bool(s)]: a string is true when it is not empty. *)
Definition truthy (s : string) : bool :=
  match s with EmptyString => false | String _ _ => true end.

(** [s.startswith(p)] *)
Fixpoint startswith (p s : string) : bool :=
  match p, s with
  | EmptyString, _ => true
  | String a p', String b s' => Ascii.eqb a b && startswith p' s'
  | String _ _, EmptyString => false
  end.

(** [s[n:]] *)
Fixpoint drop (n : nat) (s : string) : string :=
  match n, s with
  | O, _ => s
  | S n', String _ s' => drop n' s'
  | S _, EmptyString => EmptyString
  end.

(** [sub in s] *)
Fixpoint contains (sub s : string) : bool :=
  startswith sub s
  || match s with
     | EmptyString => false
     | String _ s' => contains sub s'
     end.

(** [s * n] *)
Fixpoint repeat_nat (s : string) (n : nat) : string :=
  match n with
  | O => EmptyString
  | S n' => s ++ repeat_nat s n'
  end.

Definition repeat (s : string) (n : Z) : string := repeat_nat s (Z.to_nat n).

(** [sep.join(l)] *)
Fixpoint join (sep : string) (l : list string) : string :=
  match l with
  | [] => EmptyString
  | [x] => x
  | x :: l' => x ++ sep ++ join sep l'
  end.

(** [EmptyString.join(l)] *)
Definition concat (l : list string) : string := join EmptyString l.

(** [s.replace(old, new)]: the occurrences of [old] are found from the
    left and do not overlap; [skip] counts the characters of a found
    occurrence that are still to be passed over. *)
Fixpoint replace_from (old new : string) (skip : nat) (s : string) : string :=
  match s with
  | EmptyString => EmptyString
  | String c s' =>
      match skip with
      | S k => replace_from old new k s'
      | O =>
          if startswith old s
          then new ++ replace_from old new (String.length old - 1) s'
          else String c (replace_from old new 0 s')
      end
  end.

Fixpoint replace_empty (new s : string) : string :=
  match s with
  | EmptyString => new
  | String c s' => new ++ String c (replace_empty new s')
  end.

Definition replace (old new s : string) : string :=
  match old with
  | EmptyString => replace_empty new s
  | String _ _ => replace_from old new 0 s
  end.

(** [c.lower()] on the code points below 256: the ASCII capitals and
    the capitals of Latin-1 ([U+00C0] to [U+00DE] without the
    multiplication sign [U+00D7]) move up by 32. *)
Definition lower_char (c : ascii) : ascii :=
  if between 65 90 c || (between 192 222 c && negb (ord c =? 215)%nat)
  then ascii_of_nat (ord c + 32)
  else c.

Definition lower (s : string) : string := map lower_char s.

(** [c.isspace()] on the code points below 256. *)
Definition isspace (c : ascii) : bool :=
  between 9 13 c || between 28 32 c || (ord c =? 133)%nat || (ord c =? 160)%nat.

Fixpoint lstrip (s : string) : string :=
  match s with
  | EmptyString => EmptyString
  | String c s' => if isspace c then lstrip s' else s
  end.

Fixpoint rstrip (s : string) : string :=
  match s with
  | EmptyString => EmptyString
  | String c s' =>
      match rstrip s' with
      | EmptyString => if isspace c then EmptyString else str1 c
      | r => String c r
      end
  end.

(** [s.strip()] *)
Definition strip (s : string) : string := rstrip (lstrip s).

(** [s.split(sep)] and [s.split(sep, maxsplit)] for a separator of one
    character, which is what every call in the code passes.
    [cur] holds the characters of the current piece, last one first. *)
Fixpoint rev_string (acc s : string) : string :=
  match s with
  | EmptyString => acc
  | String c s' => rev_string (String c acc) s'
  end.

Fixpoint split_from (sep : ascii) (maxsplit : option nat) (cur s : string)
  : list string :=
  match s with
  | EmptyString => [rev_string EmptyString cur]
  | String c s' =>
      if Ascii.eqb c sep then
        match maxsplit with
        | Some O => split_from sep maxsplit (String c cur) s'
        | Some (S k) =>
            rev_string EmptyString cur :: split_from sep (Some k) EmptyString s'
        | None =>
            rev_string EmptyString cur :: split_from sep None EmptyString s'
        end
      else split_from sep maxsplit (String c cur) s'
  end.

Definition split (sep : ascii) (s : string) : list string :=
  split_from sep None EmptyString s.

Definition split_max (sep : ascii) (maxsplit : nat) (s : string) : list string :=
  split_from sep (Some maxsplit) EmptyString s.

(** [s.split(chr(10))], the lines of a text. *)
Definition lines (s : string) : list string := split ch_nl s.

End PyStr.

(** ** The fragment of [re] that [sanitize_path] uses

    A pattern that is one character class.  [sub] replaces every
    character the class matches. *)

Module Re.

Inductive class_item : Type :=
| Range (lo hi : ascii)
| Lit (c : ascii).

Record char_class : Type := mkClass {
  negated : bool;
  items : list class_item
}.

Definition item_matches (c : ascii) (i : class_item) : bool :=
  match i with
  | Range lo hi => between (ord lo) (ord hi) c
  | Lit d => Ascii.eqb c d
  end.

Definition class_matches (cls : char_class) (c : ascii) : bool :=
  xorb (negated cls) (existsb (item_matches c) (items cls)).

Fixpoint sub (cls : char_class) (repl s : string) : string :=
  match s with
  | EmptyString => EmptyString
  | String c s' =>
      if class_matches cls c then repl ++ sub cls repl s'
      else String c (sub cls repl s')
  end.

End Re.

(** ** [sanitize_path]  (exporter.py, and the method of the same body in
    provider.py) *)

(** [re.compile(r"[^a-zA-Z0-9-_\.]")]: after the range [0-9] the hyphen
    is a literal, as are the underscore and the escaped dot. *)
Definition pattern : Re.char_class :=
  Re.mkClass true
    [Re.Range "a" "z"; Re.Range "A" "Z"; Re.Range "0" "9";
     Re.Lit "-"; Re.Lit "_"; Re.Lit "."].

Definition sanitize_path (name : string) : string :=
  let name := PyStr.lower (PyStr.replace " " "_" name) in
  Re.sub pattern EmptyString name.

Definition NotionProvider_sanitize_path (name : string) : string :=
  let name := PyStr.lower (PyStr.replace " " "_" name) in
  Re.sub pattern EmptyString name.

(** ** Results of calls that can raise

    The exceptions the modelled code can raise.  Their messages, which
    print whole blobs and dicts, are left out; [ValueError] keeps the
    blob type the renderer was asked for. *)

Inductive exn : Type :=
| AssertionError
| ValueError (blob_type : string)
| TypeError
| AttributeError
| KeyError
| IndexError
| UnboundLocalError
| NotImplementedError
| RecursionError.

Inductive result (A : Type) : Type :=
| Ok (a : A)
| Raise (e : exn).

Arguments Ok {A} a.
Arguments Raise {A} e.

Definition bind {A B : Type} (r : result A) (k : A -> result B) : result B :=
  match r with
  | Ok a => k a
  | Raise e => Raise e
  end.

Notation "x <- e ;; k" := (bind e (fun x => k))
  (at level 61, e at next level, right associativity).

(** [assert cond] *)
Definition assert (cond : bool) : result unit :=
  if cond then Ok tt else Raise AssertionError.

(** [[f(x) for x in l]], stopping at the first call that raises. *)
Definition for_each {A B : Type} (f : A -> result B) : list A -> result (list B) :=
  fix go (l : list A) : result (list B) :=
    match l with
    | [] => Ok []
    | x :: l' => y <- f x ;; ys <- go l' ;; Ok (y :: ys)
    end.

(** [l.insert(i, x)] for [i >= 0]: past the end it appends. *)
Definition list_insert {A : Type} (i : nat) (x : A) (l : list A) : list A :=
  (firstn i l ++ x :: skipn i l)%list.

(** ** The data model  (base.py)

    Modelled from the spec: base.py, which declares ContentWithAnnotation,
    Blob and BlobType, is not among the sources.  The fields are those the
    constructor calls in provider.py and formatter.py pass and the spec's
    data model lists.  A blob's [type] is kept as the string
    [blob.type.value], the only thing the renderer reads of it. *)

Module Base.

Record ContentWithAnnotation : Type := mkContent {
  plain_text : string;
  bold : bool;
  italic : bool;
  strikethrough : bool;
  underline : bool;
  code : bool;
  color : string;
  href : option string;
  is_equation : bool;
  highlight : bool;
  is_caption : bool;
  is_toggleable : bool;
  is_feature_image : bool
}.

Inductive Blob : Type := mkBlob {
  id : string;
  rich_text : list ContentWithAnnotation;
  type : string;
  children : option (list Blob);
  file : option string;
  language : option string;
  table_width : option Z;
  table_cells : option (list (list ContentWithAnnotation));
  is_checked : option bool;
  url : option string
}.

(** [ContentWithAnnotation(plain_text=s)] with every flag at its default. *)
Definition plain (s : string) : ContentWithAnnotation :=
  mkContent s false false false false false EmptyString None
            false false false false false.

End Base.

(** Truth values of optional fields. *)
Definition truthy_bool (o : option bool) : bool :=
  match o with Some b => b | None => false end.

Definition truthy_list {A : Type} (o : option (list A)) : bool :=
  match o with Some (_ :: _) => true | _ => false end.

(** The elements a [for] loop visits after [if xs:]. *)
Definition elements {A : Type} (o : option (list A)) : list A :=
  match o with Some l => l | None => [] end.

(** [f"{x}"] for an optional string: [None] prints as its name. *)
Definition fmt_opt (o : option string) : string :=
  match o with Some s => s | None => "None" end.

Definition quoted (s : string) : string := dquote ++ s ++ dquote.

(** ** [MarkdownStyler]  (exporter.py)

    The renderers call [cls.process] on a blob's children and [process]
    calls the renderers.  Inside the section [process] stands for that
    recursive call; [process_blob] below closes the recursion, by
    structural recursion on the blob.  [path_exists] is [os.path.exists]
    at the time of rendering. *)

Module MarkdownStyler.
Import Base.

Definition INC_INDENT : Z := 4.

Fixpoint style_loop (ts : list string) (texts : list ContentWithAnnotation)
  : string :=
  match texts with
  | [] => PyStr.concat ts
  | text :: texts' =>
      let t := plain_text text in
      if negb (PyStr.truthy t) then EmptyString
      else
        let t := if bold text then "**" ++ t ++ "**" else t in
        let t := if italic text then "_" ++ t ++ "_" else t in
        let t := if strikethrough text then "~~" ++ t ++ "~~" else t in
        let t := if underline text then "<ins>" ++ t ++ "</ins>" else t in
        let t := if Base.code text then "`" ++ t ++ "`" else t in
        (* [if text.color: pass] does nothing *)
        let t := match href text with
                 | Some h => if PyStr.truthy h then "[" ++ t ++ "](" ++ h ++ ")" else t
                 | None => t
                 end in
        let t := if is_equation text then "$ " ++ t ++ " $" else t in
        let t := if highlight text then "<mark>" ++ t ++ "</mark>" else t in
        style_loop (ts ++ [t])%list texts'
  end.

Definition _style_content_with_annotation (texts : list ContentWithAnnotation)
  : string :=
  style_loop [] texts.

Definition parse_caption (input_string : string) : string * string :=
  if PyStr.contains (str1 ch_backslash) input_string then
    let parts := PyStr.split_max ch_backslash 1 input_string in
    let caption := PyStr.strip (nth 0 parts EmptyString) in
    let alt := PyStr.strip (nth 1 parts EmptyString) in
    (caption, alt)
  else (input_string, EmptyString).

Definition TABLE_OPEN : string :=
  "{{< bootstrap-table table_class="
  ++ quoted "table table-striped table-bordered table-nonfluid w-auto"
  ++ " >}}".

Definition TABLE_CLOSE : string := "{{< /bootstrap-table >}}".

Definition YOUTU_BE : string := "https://youtu.be/".

Section Renderers.

Variable path_exists : string -> bool.
Variable process : option Blob -> Z -> result string.

Definition paragraph (blob : Blob) (indent : Z) : result string :=
  let texts := [_style_content_with_annotation (rich_text blob)] in
  rest <- match children blob with
          | Some ((_ :: _) as kids) =>
              for_each (fun child_blob =>
                          process (Some child_blob) (indent + INC_INDENT)) kids
          | _ => Ok []
          end ;;
  Ok (PyStr.join nl (texts ++ rest)%list).

Definition divider (blob : Blob) (indent : Z) : result string :=
  Ok (nl ++ "---" ++ nl).

Definition heading_1 (blob : Blob) (indent : Z) : result string :=
  s <- paragraph blob indent ;; Ok ("# " ++ s).

Definition heading_2 (blob : Blob) (indent : Z) : result string :=
  s <- paragraph blob indent ;; Ok ("## " ++ s).

Definition heading_3 (blob : Blob) (indent : Z) : result string :=
  s <- paragraph blob indent ;; Ok ("### " ++ s).

Definition equation (blob : Blob) (indent : Z) : result string :=
  s <- paragraph blob indent ;; Ok ("$$" ++ nl ++ s ++ nl ++ "$$").

Definition code (blob : Blob) (indent : Z) : result string :=
  let fence := "```" ++ fmt_opt (language blob) in
  s <- paragraph blob indent ;;
  Ok (PyStr.join nl [fence; s; "```"]).

Definition _list_item (blob : Blob) (list_ch : string) (indent : Z)
  : result string :=
  let whitespace := PyStr.repeat " " indent in
  let texts :=
    [whitespace ++ list_ch ++ " "
     ++ _style_content_with_annotation (rich_text blob)] in
  rest <- match children blob with
          | Some ((_ :: _) as kids) =>
              for_each (fun child_blob =>
                          process (Some child_blob) (indent + INC_INDENT)) kids
          | _ => Ok []
          end ;;
  Ok (PyStr.join nl (texts ++ rest)%list).

Definition bulleted_list_item (blob : Blob) (indent : Z) : result string :=
  _list_item blob "-" indent.

Definition numbered_list_item (blob : Blob) (indent : Z) : result string :=
  _list_item blob "1." indent.

Definition to_do (blob : Blob) (indent : Z) : result string :=
  _list_item blob
    ("- [" ++ (if truthy_bool (is_checked blob) then "X" else " ") ++ "]")
    indent.

Definition quote (blob : Blob) (indent : Z) : result string :=
  let texts := ["> " ++ _style_content_with_annotation (rich_text blob)] in
  let rest :=
    match children blob with
    | Some ((_ :: _) as kids) =>
        map (fun child_blob =>
               "> " ++ _style_content_with_annotation (rich_text child_blob)) kids
    | _ => []
    end in
  Ok (PyStr.join (nl ++ ">" ++ nl) (texts ++ rest)%list).

Definition table (blob : Blob) (indent : Z) : result string :=
  match table_width blob with
  | None => Raise AssertionError
  | Some table_width =>
      _ <- assert (negb (table_width =? 0)%Z) ;;
      rows <- match children blob with
              | Some ((_ :: _) as kids) =>
                  rows <- for_each
                            (fun child_blob => process (Some child_blob) indent)
                            kids ;;
                  Ok (if (1 <=? List.length rows)%nat
                      then list_insert 1
                             (nl ++ "|" ++ PyStr.repeat "---|" table_width) rows
                      else rows)
              | _ => Ok []
              end ;;
      let table_content := PyStr.concat rows in
      Ok (nl ++ TABLE_OPEN ++ table_content ++ nl ++ TABLE_CLOSE)
  end.

Definition table_row (blob : Blob) (indent : Z) : result string :=
  _ <- assert (truthy_list (table_cells blob)) ;;
  Ok ("| "
      ++ PyStr.join " | "
           (map _style_content_with_annotation (elements (table_cells blob)))
      ++ " |").

Definition image (blob : Blob) (indent : Z) : result string :=
  match file blob with
  | None => Raise AssertionError
  | Some file =>
      _ <- assert (PyStr.truthy file && path_exists file) ;;
      let caption := _style_content_with_annotation (rich_text blob) in
      let path_parts := PyStr.split "/" file in
      let new_path_parts := (["images"] ++ skipn 2 path_parts)%list in
      let relative_path := PyStr.join "/" new_path_parts in
      let '(extract_cap, extract_alt) := parse_caption caption in
      Ok ("{{< img class=" ++ quoted "blog-img-center"
          ++ " width=" ++ quoted "800"
          ++ " src=" ++ quoted relative_path
          ++ " caption=" ++ quoted extract_cap
          ++ " alt=" ++ quoted extract_alt ++ " >}}")
  end.

Definition video (blob : Blob) (indent : Z) : result string :=
  let title := _style_content_with_annotation (rich_text blob) in
  _ <- assert (negb (String.eqb title EmptyString)) ;;
  match url blob with
  | None => Raise AttributeError
  | Some u =>
      _ <- assert (PyStr.startswith YOUTU_BE u) ;;
      let video_id := PyStr.drop (String.length YOUTU_BE) u in
      Ok ("{{< youtube id=" ++ quoted video_id
          ++ " title=" ++ quoted title ++ " width=60 >}}")
  end.

Definition column_list (blob : Blob) (indent : Z) : result string :=
  let texts := [_style_content_with_annotation (rich_text blob)] in
  rest <- match children blob with
          | Some ((_ :: _) as kids) =>
              for_each (fun child_blob =>
                          process (Some child_blob) (indent + INC_INDENT)) kids
          | _ => Ok []
          end ;;
  Ok (PyStr.join nl (texts ++ rest)%list).

Definition column (blob : Blob) (indent : Z) : result string :=
  _list_item blob "-column" indent.

Definition callout (blob : Blob) (indent : Z) : result string :=
  let text := _style_content_with_annotation (rich_text blob) in
  Ok ("{{< callout emoji=" ++ quoted EmptyString
      ++ " text=" ++ quoted text ++ " >}}").

(** The names the class body binds, in the order of the source.  The
    names the class inherits from [object] are no block types of Notion
    and are left out. *)
Definition class_body : list string :=
  [ "INC_INDENT"; "_style_content_with_annotation"; "divider"; "heading_1";
    "heading_2"; "heading_3"; "equation"; "code"; "_list_item";
    "bulleted_list_item"; "numbered_list_item"; "to_do"; "quote"; "table";
    "table_row"; "parse_caption"; "image"; "paragraph"; "process"; "video";
    "column_list"; "column"; "callout" ].

(** [hasattr(cls, name)] *)
Definition hasattr (name : string) : bool :=
  existsb (String.eqb name) class_body.

(** [getattr(cls, name)(blob, indent)] for a name of the class body.
    Calling an attribute that is no renderer with [(blob, indent)]
    raises: [process] would call itself on the same blob without end,
    the constant is not callable and the helpers take another number of
    arguments. *)
Definition getattr_call (name : string) (blob : Blob) (indent : Z)
  : result string :=
  if name =? "divider" then divider blob indent
  else if name =? "heading_1" then heading_1 blob indent
  else if name =? "heading_2" then heading_2 blob indent
  else if name =? "heading_3" then heading_3 blob indent
  else if name =? "equation" then equation blob indent
  else if name =? "code" then code blob indent
  else if name =? "bulleted_list_item" then bulleted_list_item blob indent
  else if name =? "numbered_list_item" then numbered_list_item blob indent
  else if name =? "to_do" then to_do blob indent
  else if name =? "quote" then quote blob indent
  else if name =? "table" then table blob indent
  else if name =? "table_row" then table_row blob indent
  else if name =? "image" then image blob indent
  else if name =? "paragraph" then paragraph blob indent
  else if name =? "video" then video blob indent
  else if name =? "column_list" then column_list blob indent
  else if name =? "column" then column blob indent
  else if name =? "callout" then callout blob indent
  else if name =? "process" then Raise RecursionError
  else Raise TypeError.

(** The body of [process] for a blob that is not [None]. *)
Definition process_some (blob : Blob) (indent : Z) : result string :=
  if negb (hasattr (type blob)) then Raise (ValueError (type blob))
  else s <- getattr_call (type blob) blob indent ;; Ok (nl ++ s).

End Renderers.

Fixpoint process_blob (path_exists : string -> bool) (b : Blob) (indent : Z)
  {struct b} : result string :=
  process_some path_exists
    (fun child i =>
       match child with
       | None => Ok EmptyString
       | Some c => process_blob path_exists c i
       end)
    b indent.

Definition process (path_exists : string -> bool) (blob : option Blob)
  (indent : Z) : result string :=
  match blob with
  | None => Ok EmptyString
  | Some b => process_blob path_exists b indent
  end.

End MarkdownStyler.

(** ** JSON values as Python sees them

    The page properties that the Notion client hands to
    [parse_properties] are decoded JSON: [None], booleans, numbers,
    strings, lists and dicts with string keys.  A dict keeps the order
    in which its keys were inserted, so it is a list of bindings. *)

Inductive pyval : Type :=
| PNone
| PBool (b : bool)
| PInt (n : Z)
| PFloat (mantissa exponent : Z)
| PStr (s : string)
| PList (l : list pyval)
| PDict (d : list (string * pyval)).

Definition pydict : Type := list (string * pyval).

Module Py.

(** [bool(v)] *)
Definition truthy (v : pyval) : bool :=
  match v with
  | PNone => false
  | PBool b => b
  | PInt n => negb (n =? 0)%Z
  | PFloat m _ => negb (m =? 0)%Z
  | PStr s => PyStr.truthy s
  | PList l => match l with [] => false | _ :: _ => true end
  | PDict d => match d with [] => false | _ :: _ => true end
  end.

(** [d.get(k)] on the bindings of a dict. *)
Fixpoint lookup (d : pydict) (k : string) : option pyval :=
  match d with
  | [] => None
  | (k', v) :: d' => if String.eqb k' k then Some v else lookup d' k
  end.

(** [d.get(k)] as a value: [None] when the key is missing. *)
Definition dget (d : pydict) (k : string) : pyval :=
  match lookup d k with Some x => x | None => PNone end.

(** [k in d] *)
Definition mem (d : pydict) (k : string) : bool :=
  match lookup d k with Some _ => true | None => false end.

(** [d[k] = v]: an existing key keeps its place. *)
Fixpoint set (d : pydict) (k : string) (v : pyval) : pydict :=
  match d with
  | [] => [(k, v)]
  | (k', v') :: d' =>
      if String.eqb k' k then (k', v) :: d' else (k', v') :: set d' k v
  end.

(** [v[k]] for a string [k]: only a dict takes a string as subscript. *)
Definition subscript (v : pyval) (k : string) : result pyval :=
  match v with
  | PDict d => match lookup d k with Some x => Ok x | None => Raise KeyError end
  | _ => Raise TypeError
  end.

(** [d[key]] for a dict with string keys and any [key]: a list or a dict
    cannot be hashed, and no other value equals a string. *)
Definition subscript_any (d : pydict) (key : pyval) : result pyval :=
  match key with
  | PStr k => match lookup d k with Some x => Ok x | None => Raise KeyError end
  | PList _ | PDict _ => Raise TypeError
  | _ => Raise KeyError
  end.

(** [v.get(k, default)]: only a dict has the method. *)
Definition get (v : pyval) (k : string) (default : pyval) : result pyval :=
  match v with
  | PDict d => Ok (match lookup d k with Some x => x | None => default end)
  | _ => Raise AttributeError
  end.

Fixpoint chars (s : string) : list pyval :=
  match s with
  | EmptyString => []
  | String c s' => PStr (str1 c) :: chars s'
  end.

(** The values [for x in v] visits. *)
Definition iterate (v : pyval) : result (list pyval) :=
  match v with
  | PList l => Ok l
  | PDict d => Ok (map (fun kv => PStr (fst kv)) d)
  | PStr s => Ok (chars s)
  | _ => Raise TypeError
  end.

(** [a + v + b] for strings [a] and [b]. *)
Definition enclose (a : string) (v : pyval) (b : string) : result pyval :=
  match v with
  | PStr s => Ok (PStr (a ++ s ++ b))
  | _ => Raise TypeError
  end.

Definition is_none (v : pyval) : bool :=
  match v with PNone => true | _ => false end.

Definition str_of_int (n : Z) : string :=
  DecimalString.NilZero.string_of_int (Z.to_int n).

End Py.

(** ** [NotionParser.parse_properties]  (provider.py)

    [repr_of] is what an f-string prints for a float, a list or a dict;
    Python's [repr] of those is not modelled and stays a parameter. *)

Module NotionParser.

Section ParseProperties.

Variable repr_of : pyval -> string.

(** [f"{v}"] *)
Definition fmt (v : pyval) : string :=
  match v with
  | PStr s => s
  | PInt n => Py.str_of_int n
  | PBool true => "True"
  | PBool false => "False"
  | PNone => "None"
  | PFloat _ _ | PList _ | PDict _ => repr_of v
  end.

(** The chain of the branch [isinstance(c, dict)].  [value] is the local
    variable of that name as the loop found it: [None] while nothing
    has been assigned to it.  The chain has no final [else], so when no
    test holds [value] is left as it was. *)
Definition resolve_dict (c : pydict) (value : option pyval)
  : result (option pyval) :=
  if Py.truthy (Py.dget c "name")
  then x <- Py.subscript (PDict c) "name" ;; Ok (Some x)
  else if Py.truthy (Py.dget c "type")
  then t <- Py.subscript (PDict c) "type" ;;
       x <- Py.subscript_any c t ;; Ok (Some x)
  else if Py.truthy (Py.dget c "prefix")
          && Py.truthy (Py.dget c "number")
  then p <- Py.subscript (PDict c) "prefix" ;;
       n <- Py.subscript (PDict c) "number" ;;
       Ok (Some (PStr (fmt p ++ "_" ++ fmt n)))
  else if Py.truthy (Py.dget c "start")
  then x <- Py.subscript (PDict c) "start" ;; Ok (Some x)
  else Ok value.

(** One turn of [for k, v in metadata.items()], on the locals [prop] and
    [value]. *)
Definition loop_body (st : pydict * option pyval) (kv : string * pyval)
  : result (pydict * option pyval) :=
  let '(prop, value) := st in
  let '(k, v) := kv in
  ty <- Py.subscript v "type" ;;
  match ty with
  | PStr ty =>
      if PyStr.contains ty "relation" then Ok (prop, value)
      else if ty =? "title" then
        title <- Py.subscript v "title" ;;
        cs <- Py.iterate title ;;
        values <- for_each
                    (fun c => t <- Py.subscript c "plain_text" ;;
                              Py.enclose "'" t "'") cs ;;
        Ok (Py.set prop "Title"
              (match values with [x] => x | _ => PList values end), value)
      else
        c <- Py.get v ty (PDict []) ;;
        if negb (Py.truthy c) then Ok (Py.set prop k c, value)
        else
          match c with
          | PStr _ | PInt _ | PBool _ => Ok (Py.set prop k c, value)
          | PList l =>
              names <- for_each (fun t => Py.get t "name" PNone) l ;;
              Ok (Py.set prop k
                    (PList (filter (fun x => negb (Py.is_none x)) names)), value)
          | PDict d =>
              value <- resolve_dict d value ;;
              match value with
              | None => Raise UnboundLocalError
              | Some x => Ok (Py.set prop k x, value)
              end
          | PNone | PFloat _ _ => Raise NotImplementedError
          end
  | _ => Raise TypeError
  end.

Fixpoint loop (st : pydict * option pyval) (items : list (string * pyval))
  : result (pydict * option pyval) :=
  match items with
  | [] => Ok st
  | kv :: items' => st' <- loop_body st kv ;; loop st' items'
  end.

(** The block after the loop that looks at the [Summary] property. *)
Definition summary (metadata prop : pydict) : result pydict :=
  match Py.lookup metadata "Summary" with
  | None => Ok prop
  | Some s =>
      rich_text <- Py.get s "rich_text" (PList []) ;;
      match rich_text with
      | PList (first :: _) =>
          text <- Py.get first "text" (PDict []) ;;
          content <- Py.get text "content" PNone ;;
          if Py.truthy content
          then Ok (Py.set prop "Summary" (PStr ("'" ++ fmt content ++ "'")))
          else Ok prop
      | _ => Ok prop
      end
  end.

Definition parse_properties (metadata : pydict) : result pydict :=
  st <- loop ([], None) metadata ;;
  prop <- summary metadata (fst st) ;;
  Ok (Py.set prop "lesedauer" (PStr "ReadingTime")).

End ParseProperties.

End NotionParser.

(** ** The vocabulary of the specification

    What the specification says in its own words, to be compared with
    the code above. *)

Module Spec.
Import Base.

(** *** Sanitising a path *)

Definition space_to_underscore (c : ascii) : ascii :=
  if Ascii.eqb c " " then "_"%char else c.

(** The characters of [[a-zA-Z0-9-_.]]. *)
Definition allowed (c : ascii) : bool :=
  between 97 122 c || between 65 90 c || between 48 57 c
  || Ascii.eqb c "-" || Ascii.eqb c "_" || Ascii.eqb c ".".

(** The characters of [[a-z0-9-_.]]. *)
Definition allowed_lower (c : ascii) : bool :=
  between 97 122 c || between 48 57 c
  || Ascii.eqb c "-" || Ascii.eqb c "_" || Ascii.eqb c ".".

Definition is_upper (c : ascii) : bool := between 65 90 c.

Definition is_space (c : ascii) : bool := Ascii.eqb c " ".

(** Spaces to underscores, then lower case, then the characters that
    are not allowed dropped. *)
Definition sanitized (s : string) : string :=
  PyStr.filter allowed (PyStr.map PyStr.lower_char (PyStr.map space_to_underscore s)).

(** *** Styling an annotation *)

Inductive markup : Type :=
| Bold
| Italic
| Strikethrough
| Underline
| Code
| Link
| Equation
| Highlight.

(** The order in which the markup nests, innermost first. *)
Definition NESTING_ORDER : list markup :=
  [Bold; Italic; Strikethrough; Underline; Code; Link; Equation; Highlight].

(** Whether an annotation asks for a markup. *)
Definition applies (a : ContentWithAnnotation) (m : markup) : bool :=
  match m with
  | Bold => bold a
  | Italic => italic a
  | Strikethrough => strikethrough a
  | Underline => underline a
  | Code => Base.code a
  | Link => match href a with Some h => PyStr.truthy h | None => false end
  | Equation => is_equation a
  | Highlight => highlight a
  end.

(** One markup put around a text. *)
Definition wrap (a : ContentWithAnnotation) (t : string) (m : markup) : string :=
  match m with
  | Bold => "**" ++ t ++ "**"
  | Italic => "_" ++ t ++ "_"
  | Strikethrough => "~~" ++ t ++ "~~"
  | Underline => "<ins>" ++ t ++ "</ins>"
  | Code => "`" ++ t ++ "`"
  | Link => "[" ++ t ++ "](" ++ fmt_opt (href a) ++ ")"
  | Equation => "$ " ++ t ++ " $"
  | Highlight => "<mark>" ++ t ++ "</mark>"
  end.

(** The markups of a list put around a text, the first one innermost. *)
Definition nest (a : ContentWithAnnotation) (ms : list markup) (t : string)
  : string :=
  fold_left (wrap a) ms t.

(** The rendering of one annotation: the markups it asks for, in the
    nesting order, around its text. *)
Definition styled (a : ContentWithAnnotation) : string :=
  nest a (filter (applies a) NESTING_ORDER) (plain_text a).

(** *** Dispatch *)

(** The variants that have a renderer. *)
Definition RENDERERS : list string :=
  [ "paragraph"; "heading_1"; "heading_2"; "heading_3"; "divider"; "equation";
    "code"; "bulleted_list_item"; "numbered_list_item"; "to_do"; "quote";
    "table"; "table_row"; "image"; "video"; "column_list"; "column";
    "callout" ].

Definition has_renderer (variant : string) : bool :=
  existsb (String.eqb variant) RENDERERS.

(** *** Captions *)

(** The text before the first backslash and the text after it, when
    there is one. *)
Fixpoint at_first_backslash (s : string) : option (string * string) :=
  match s with
  | EmptyString => None
  | String c s' =>
      if Ascii.eqb c ch_backslash then Some (EmptyString, s')
      else match at_first_backslash s' with
           | Some (before, after) => Some (String c before, after)
           | None => None
           end
  end.

(** *** Splitting *)

(** A text with no occurrence of the character [sep]. *)
Definition free_of (sep : ascii) (s : string) : bool :=
  PyStr.forallb (fun c => negb (Ascii.eqb c sep)) s.

(** *** Tables *)

Definition is_pipe (c : ascii) : bool := Ascii.eqb c "|".

Definition is_newline (c : ascii) : bool := Ascii.eqb c ch_nl.

(** A text with no pipe and no line break in it. *)
Definition plain_cell (s : string) : bool :=
  PyStr.forallb (fun c => negb (is_pipe c) && negb (is_newline c)) s.

(** The cells of a row, styled. *)
Definition cells_of (row : Blob) : list string :=
  map MarkdownStyler._style_content_with_annotation (elements (table_cells row)).

(** The line of a row: its cells between pipes. *)
Definition row_line (row : Blob) : string :=
  "| " ++ PyStr.join " | " (cells_of row) ++ " |".

(** The separator line: [w] cells of three dashes. *)
Definition separator_line (w : Z) : string :=
  "|" ++ PyStr.repeat "---|" w.

(** The lines of a text that have a pipe in them. *)
Definition pipe_lines (out : string) : list string :=
  filter (PyStr.contains "|") (PyStr.lines out).

Definition pipes (line : string) : nat := PyStr.count is_pipe line.

(** A row the table renderer accepts: a [table_row] with at least one
    cell. *)
Definition is_row (b : Blob) : Prop :=
  type b = "table_row" /\ truthy_list (table_cells b) = true.

(** *** Images *)

(** The image shortcode with its three computed attributes. *)
Definition img_shortcode (src caption alt : string) : string :=
  "{{< img class=" ++ quoted "blog-img-center"
  ++ " width=" ++ quoted "800"
  ++ " src=" ++ quoted src
  ++ " caption=" ++ quoted caption
  ++ " alt=" ++ quoted alt ++ " >}}".

(** The path with its first [n] segments replaced by the folder
    [images]. *)
Definition images_path (n : nat) (file : string) : string :=
  PyStr.join "/" ("images" :: skipn n (PyStr.split "/" file)).

End Spec.

(** ** Sample values *)

Module Sample.
Import Base.

Definition bold_italic_x : ContentWithAnnotation :=
  mkContent "x" true true false false false EmptyString None
            false false false false false.

Definition bold_empty : ContentWithAnnotation :=
  mkContent EmptyString true false false false false EmptyString None
            false false false false false.

Definition row (cells : list string) : Blob :=
  mkBlob "r" [] "table_row" None None None None
         (Some (map (fun s => [plain s]) cells)) None (Some EmptyString).

Definition table_of (width : Z) (rows : list Blob) : Blob :=
  mkBlob "t" [] "table" (Some rows) None None (Some width) None None
         (Some EmptyString).

Definition table_2x3 : Blob :=
  table_of 3 [row ["a"; "b"; "c"]; row ["1"; "2"; "3"]].

Definition table_2x3_pipe : Blob :=
  table_of 3 [row ["a|b"; "c"; "d"]; row ["1"; "2"; "3"]].

Definition image_of (path : string) (caption : string) : Blob :=
  mkBlob "i" [plain caption] "image" None (Some path) None None None None
         (Some EmptyString).

Definition toggle : Blob :=
  mkBlob "g" [plain "more"] "toggle" None None None None None None
         (Some EmptyString).

Definition on_disk (path : string) : bool := true.

Definition no_repr (v : pyval) : string := "?".

Definition select (name : string) : pyval :=
  PDict [("type", PStr "select"); ("select", PDict [("name", PStr name)])].

Definition unique_id (prefix : pyval) (number : Z) : pyval :=
  PDict [("type", PStr "unique_id");
         ("unique_id", PDict [("prefix", prefix); ("number", PInt number)])].

Definition number (n : Z) : pyval :=
  PDict [("type", PStr "number"); ("number", PInt n)].

End Sample.

(** ** The page  (base.py)

    Modelled from the spec: base.py, which declares PageContent, is not
    among the sources.  The fields are those the constructor calls in
    provider.py and formatter.py pass; [header] and [footer] are [None]
    when the call leaves them out. *)

Module Document.

Record PageContent : Type := mkPage {
  id : string;
  blobs : list Base.Blob;
  properties : pydict;
  header : option Base.Blob;
  footer : option Base.Blob
}.

End Document.

(** ** More of [dict] and [str] *)

Module PyMore.

(** [d.pop(k)]: the value and the dict without the key. *)
Fixpoint remove (d : pydict) (k : string) : pydict :=
  match d with
  | [] => []
  | (k', v) :: d' => if String.eqb k' k then d' else (k', v) :: remove d' k
  end.

Definition pop (d : pydict) (k : string) : result (pyval * pydict) :=
  match Py.lookup d k with
  | Some v => Ok (v, remove d k)
  | None => Raise KeyError
  end.

(** [a == b] for a value and a string. *)
Definition eq_str (v : pyval) (s : string) : bool :=
  match v with PStr t => String.eqb t s | _ => false end.

(** [s.endswith(c)] for one character. *)
Fixpoint endswith_char (c : ascii) (s : string) : bool :=
  match s with
  | EmptyString => false
  | String a EmptyString => Ascii.eqb a c
  | String _ s' => endswith_char c s'
  end.

End PyMore.

(** ** [posixpath]: the two functions of [os.path] that compute paths *)

Module PosixPath.

(** The loop of [os.path.join(a, *p)]. *)
Fixpoint join_from (path : string) (p : list string) : string :=
  match p with
  | [] => path
  | b :: p' =>
      if PyStr.startswith "/" b then join_from b p'
      else if negb (PyStr.truthy path) || PyMore.endswith_char "/" path
      then join_from (path ++ b) p'
      else join_from (path ++ "/" ++ b) p'
  end.

Definition join (a : string) (p : list string) : string := join_from a p.

(** [os.path.basename(p)]: what follows the last slash, [p[p.rfind(sep) + 1:]]. *)
Fixpoint basename (p : string) : string :=
  match p with
  | EmptyString => EmptyString
  | String c p' =>
      if PyStr.forallb (fun a => negb (Ascii.eqb a "/")) p'
      then (if Ascii.eqb c "/" then p' else p)
      else basename p'
  end.

End PosixPath.

(** ** [NotionPageMetadata]  (provider.py)

    A dataclass does not check the types of its fields, so each field
    holds whatever value the response had. *)

Module NotionPageMetadata.

Record t : Type := mk {
  archived : pyval;
  id : pyval;
  last_edited_time : pyval;
  parent : pyval;
  properties : pyval;
  url : pyval
}.

(** [[var.name for var in fields(cls)]] *)
Definition FIELDS : list string :=
  ["archived"; "id"; "last_edited_time"; "parent"; "properties"; "url"].

(** The loop of [init]: every field is looked for in [kwargs]. *)
Fixpoint collect (fields : list string) (kwargs vals : pydict) : result pydict :=
  match fields with
  | [] => Ok vals
  | name :: fields' =>
      _ <- assert (Py.mem kwargs name) ;;
      v <- Py.subscript (PDict kwargs) name ;;
      collect fields' kwargs (Py.set vals name v)
  end.

Definition init (kwargs : pydict) : result t :=
  vals <- collect FIELDS kwargs [] ;;
  Ok (mk (Py.dget vals "archived") (Py.dget vals "id")
         (Py.dget vals "last_edited_time") (Py.dget vals "parent")
         (Py.dget vals "properties") (Py.dget vals "url")).

(** [dataclasses.asdict], one level deep. *)
Definition asdict (m : t) : pydict :=
  [("archived", archived m); ("id", id m);
   ("last_edited_time", last_edited_time m); ("parent", parent m);
   ("properties", properties m); ("url", url m)].

End NotionPageMetadata.

(** ** [NotionProvider]  (provider.py)

    The parts that compute: what [async_fetch_pages_from_db] does with
    the responses the paginated query yields, and the loop of
    [async_fetch_and_parse_page_content] that picks the feature image. *)

Module NotionProvider.
Import Base.

(** The body of the inner loop of [async_fetch_pages_from_db]. *)
Definition add_response (page_metadatas : list NotionPageMetadata.t)
  (resp : pyval) : result (list NotionPageMetadata.t) :=
  match resp with
  | PDict d =>
      if PyMore.eq_str (Py.dget d "object") "page"
      then m <- NotionPageMetadata.init d ;; Ok (page_metadatas ++ [m])%list
      else Ok page_metadatas
  | _ => Raise AssertionError
  end.

Fixpoint add_responses (page_metadatas : list NotionPageMetadata.t)
  (responses : list pyval) : result (list NotionPageMetadata.t) :=
  match responses with
  | [] => Ok page_metadatas
  | resp :: responses' =>
      ms <- add_response page_metadatas resp ;; add_responses ms responses'
  end.

(** [async_fetch_pages_from_db], on the pages of responses that the
    query yields one after the other. *)
Fixpoint fetch_pages_from (page_metadatas : list NotionPageMetadata.t)
  (pages : list (list pyval)) : result (list NotionPageMetadata.t) :=
  match pages with
  | [] => Ok page_metadatas
  | responses :: pages' =>
      ms <- add_responses page_metadatas responses ;; fetch_pages_from ms pages'
  end.

Definition async_fetch_pages_from_db (pages : list (list pyval))
  : result (list NotionPageMetadata.t) :=
  fetch_pages_from [] pages.

(** The inner loop over [blob.rich_text], which ends at its [break]:
    whether some annotation marks the blob as the feature image. *)
Definition marks_feature_image (blob : Blob) : bool :=
  existsb (fun annotation =>
             String.eqb (plain_text annotation) "featureimage"
             && is_feature_image annotation)
          (rich_text blob).

(** The outer loop over the blobs, on the local [feature_image_file];
    the [break] leaves the inner loop only. *)
Fixpoint feature_image_loop (feature_image_file : option string)
  (blobs : list Blob) : option string :=
  match blobs with
  | [] => feature_image_file
  | blob :: blobs' =>
      feature_image_loop
        (if marks_feature_image blob then file blob else feature_image_file)
        blobs'
  end.

Definition feature_image_file (blobs : list Blob) : option string :=
  feature_image_loop (Some EmptyString) blobs.

End NotionProvider.

(** ** [HugoFormatter.async_process]  (formatter.py) *)

Module HugoFormatter.
Import Base Document.

Definition key_order : list string :=
  ["Title"; "featureImage"; "Date"; "Tags"; "Summary"; "Categories"; "Lesedauer"].

(** [OrderedDict((key, d[key]) for key in key_order if key in d)] *)
Fixpoint sorted_data (keys : list string) (d : pydict) : pydict :=
  match keys with
  | [] => []
  | key :: keys' =>
      match Py.lookup d key with
      | Some v => (key, v) :: sorted_data keys' d
      | None => sorted_data keys' d
      end
  end.

Section Format.

Variable repr_of : pyval -> string.

(** [[f"{k}: {v}" for k, v in d.items() if v]] *)
Fixpoint header_props (d : pydict) : list string :=
  match d with
  | [] => []
  | (k, v) :: d' =>
      if Py.truthy v
      then (k ++ ": " ++ NotionParser.fmt repr_of v) :: header_props d'
      else header_props d'
  end.

Definition header_blob (props : pydict) : Blob :=
  mkBlob "header"
    [plain ("---" ++ nl); plain (PyStr.join nl (header_props props));
     plain (nl ++ "---" ++ nl)]
    "paragraph" None None None None None None None.

Definition async_process (content : PageContent) : result PageContent :=
  popped <- PyMore.pop (properties content) "# Status" ;;
  let props := sorted_data key_order (snd popped) in
  Ok (mkPage (Document.id content) (blobs content) props
             (Some (header_blob props)) None).

End Format.

End HugoFormatter.

(** ** [MarkdownExporter]  (exporter.py)

    The file system is a state [FS] with the three calls the exporter
    makes on it: [os.path.exists], [os.makedirs] and [shutil.copy], the
    last two giving [None] when the call raises [OSError].  The model of
    [async_process] ends where the post is written: it returns the path
    and the text that [fp.write] gets.  The write and the question that
    follows it are not modelled. *)

Module MarkdownExporter.
Import Base Document.

Record Config : Type := mkConfig {
  parent_dir : string;
  post_name_property_key : option string
}.

Definition POST_IMAGES_DIR : string := "images/".

Definition FEATURE_CAPTION : string := "caption=" ++ quoted "featureimage".

Inductive outcome (A : Type) : Type :=
| Returns (a : A)
| Raises (e : exn)
| RaisesOSError.

Arguments Returns {A} a.
Arguments Raises {A} e.
Arguments RaisesOSError {A}.

Definition lift {A : Type} (r : result A) : outcome A :=
  match r with Ok a => Returns a | Raise e => Raises e end.

Definition and_then {A B : Type} (o : outcome A) (k : A -> outcome B)
  : outcome B :=
  match o with
  | Returns a => k a
  | Raises e => Raises e
  | RaisesOSError => RaisesOSError
  end.

Definition remove_line_with_caption (lines : list string) (keyword : string)
  : list string :=
  filter (fun line => negb (PyStr.contains keyword line)) lines.

(** The types whose blobs get their file copied.

    Modelled from the spec: the members of BlobType are declared in
    base.py, which is not among the sources; [BlobType.IMAGE] and the
    like are taken to carry the name of the variant as value, the name
    [process] looks the renderer up by. *)
Definition copies_file (blob : Blob) : bool :=
  (type blob =? "image") || (type blob =? "paragraph")
  || (type blob =? "numbered_list_item") || (type blob =? "bulleted_list_item").

Section ExportLoop.

Variable FS : Type.
Variable path_exists : FS -> string -> bool.
Variable makedirs : FS -> string -> option FS.
Variable copy : FS -> string -> string -> option (string * FS).
Variable config : Config.

(** [texts.append(MarkdownStyler.process(blob))] *)
Definition render (fs : FS) (blob : Blob) : outcome (string * FS) :=
  and_then (lift (MarkdownStyler.process (path_exists fs) (Some blob) 0))
           (fun text => Returns (text, fs)).

(** One turn of [for blob in content.blobs]: the text appended to
    [texts], and the file system after it. *)
Definition export_blob (post_images_dir : string) (fs : FS) (blob : Blob)
  : outcome (string * FS) :=
  match file blob with
  | Some f =>
      if copies_file blob && (PyStr.truthy f && path_exists fs f) then
        match copy fs f post_images_dir with
        | None => RaisesOSError
        | Some (new_img_path, fs') =>
            let blob := mkBlob (Base.id blob) (rich_text blob) (type blob)
                               (children blob) (Some new_img_path)
                               (language blob) (table_width blob)
                               (table_cells blob) (is_checked blob) (url blob) in
            render fs' blob
        end
      else render fs blob
  | None => render fs blob
  end.

Fixpoint export_blobs (post_images_dir : string) (fs : FS) (texts : list string)
  (blobs : list Blob) : outcome (list string * FS) :=
  match blobs with
  | [] => Returns (texts, fs)
  | blob :: blobs' =>
      and_then (export_blob post_images_dir fs blob)
        (fun r => export_blobs post_images_dir (snd r) (texts ++ [fst r])%list blobs')
  end.

(** The name of the post directory before it is sanitised. *)
Definition post_dir_name (content : PageContent) : result string :=
  match post_name_property_key config with
  | Some key =>
      if PyStr.truthy key then
        _ <- assert (Py.truthy (Py.dget (properties content) key)) ;;
        name <- Py.subscript (PDict (properties content)) key ;;
        match name with
        | PStr s => Ok s
        | _ => Raise AssertionError
        end
      else Ok (Document.id content)
  | None => Ok (Document.id content)
  end.

Definition post_images_dir_of (name : string) : string :=
  PosixPath.join (parent_dir config) [name; name ++ "_" ++ POST_IMAGES_DIR].

Definition post_full_path_of (name : string) : string :=
  PosixPath.join (parent_dir config) [name; name ++ ".md"].

Definition async_process (content : PageContent) (fs : FS)
  : outcome (string * string * FS) :=
  and_then (lift (post_dir_name content)) (fun name =>
  let post_dir_name := sanitize_path name in
  let post_images_dir := post_images_dir_of post_dir_name in
  match makedirs fs post_images_dir with
  | None => RaisesOSError
  | Some fs =>
      let post_full_path := post_full_path_of post_dir_name in
      and_then (lift (MarkdownStyler.process (path_exists fs) (header content) 0))
        (fun header_text =>
      and_then (export_blobs post_images_dir fs [header_text] (blobs content))
        (fun r =>
      let texts := remove_line_with_caption (fst r) FEATURE_CAPTION in
      and_then (lift (MarkdownStyler.process (path_exists (snd r)) (footer content) 0))
        (fun footer_text =>
      let texts := (texts ++ [footer_text])%list in
      Returns (post_full_path, PyStr.strip (PyStr.join nl texts), snd r))))
  end).

End ExportLoop.

End MarkdownExporter.

(** ** Shapes of rendered text *)

Module Rendered.
Import Base.

(** The video shortcode with its two computed attributes. *)
Definition youtube_shortcode (video_id title : string) : string :=
  "{{< youtube id=" ++ quoted video_id
  ++ " title=" ++ quoted title ++ " width=60 >}}".

(** The line of a list item: the indent, the marker, a blank and the
    styled text. *)
Definition item_line (indent : Z) (marker : string) (b : Blob) : string :=
  PyStr.repeat " " indent ++ marker ++ " "
  ++ MarkdownStyler._style_content_with_annotation (rich_text b).

(** The variants whose renderer renders the children of the blob
    through [process]. *)
Definition RENDERS_CHILDREN : list string :=
  [ "paragraph"; "heading_1"; "heading_2"; "heading_3"; "equation"; "code";
    "bulleted_list_item"; "numbered_list_item"; "to_do"; "column_list";
    "column"; "table" ].

(** A text between single quotes, as a value. *)
Definition quoted_text (t : string) : pyval := PStr ("'" ++ t ++ "'").

(** The front matter between its two fences. *)
Definition front_matter (lines : list string) : string :=
  "---" ++ nl ++ PyStr.join nl lines ++ nl ++ "---" ++ nl.

(** A tree of bulleted items as text: the line of the item at its
    indent, then each child tree after an empty line, four blanks
    further in. *)
Fixpoint bullet_tree (b : Blob) (indent : Z) {struct b} : string :=
  item_line indent "-" b
  ++ match children b with
     | Some kids =>
         (fix below (l : list Blob) : string :=
            match l with
            | [] => EmptyString
            | k :: l' => nl ++ nl ++ bullet_tree k (indent + 4) ++ below l'
            end) kids
     | None => EmptyString
     end.

(** A tree in which every blob is a bulleted item. *)
Fixpoint all_bullets (b : Blob) {struct b} : Prop :=
  type b = "bulleted_list_item"
  /\ match children b with
     | Some kids =>
         (fix every (l : list Blob) : Prop :=
            match l with
            | [] => True
            | k :: l' => all_bullets k /\ every l'
            end) kids
     | None => True
     end.

(** A response of the query that stands for a page. *)
Definition is_page (resp : pyval) : bool :=
  match resp with
  | PDict d => PyMore.eq_str (Py.dget d "object") "page"
  | _ => false
  end.

(** Whether a call of the exporter came back. *)
Definition returned {A : Type} (o : MarkdownExporter.outcome A) : bool :=
  match o with MarkdownExporter.Returns _ => true | _ => false end.

End Rendered.

(** ** More sample values *)

Module Sample2.
Import Base.

Definition block (variant text : string) (kids : option (list Blob)) : Blob :=
  mkBlob "b" [plain text] variant kids None None None None None
         (Some EmptyString).

Definition bullet (text : string) (kids : list Blob) : Blob :=
  block "bulleted_list_item" text
        (match kids with [] => None | _ => Some kids end).

Definition video_of (title link : string) : Blob :=
  mkBlob "v" [plain title] "video" None None None None None None (Some link).

Definition feature (path : string) : Blob :=
  mkBlob "f"
    [mkContent "featureimage" false false false false false EmptyString None
       false false true false true]
    "image" None (Some path) None None None None (Some EmptyString).

Definition page_metadata : NotionPageMetadata.t :=
  NotionPageMetadata.mk (PBool false) (PStr "p1") (PStr "2024-01-01")
    (PDict [("database_id", PStr "d")]) (PDict []) (PStr "https://notion.so/p1").

Definition title (texts : list string) : pyval :=
  PDict [("type", PStr "title");
         ("title", PList (map (fun t => PDict [("plain_text", PStr t)]) texts))].

Definition rich_text (content : string) : pyval :=
  PDict [("type", PStr "rich_text");
         ("rich_text",
          PList [PDict [("text", PDict [("content", PStr content)]);
                        ("plain_text", PStr content)]])].

Definition multi_select (names : list string) : pyval :=
  PDict [("type", PStr "multi_select");
         ("multi_select",
          PList (map (fun n => PDict [("name", PStr n)]) names))].

Definition relation : pyval :=
  PDict [("type", PStr "relation"); ("relation", PList [PDict [("id", PStr "r")]])].

Definition float_number : pyval :=
  PDict [("type", PStr "number"); ("number", PFloat 7 (-1))].

Definition page : Document.PageContent :=
  Document.mkPage "p1" []
    [("Title", PStr "'T'"); ("# Status", PStr "Done");
     ("lesedauer", PStr "ReadingTime")]
    None None.

(** A file system that is the list of the paths that exist. *)
Definition paths : Type := list string.

Definition path_in (fs : paths) (p : string) : bool :=
  existsb (String.eqb p) fs.

Definition add_dir (fs : paths) (p : string) : option paths := Some (p :: fs).

Definition copy_into (fs : paths) (src dst : string) : option (string * paths) :=
  let new := PosixPath.join dst [PosixPath.basename src] in
  Some (new, new :: fs).

Definition config : MarkdownExporter.Config :=
  MarkdownExporter.mkConfig "out" (Some "Title").

Definition page_of (blobs : list Blob) : Document.PageContent :=
  Document.mkPage "p1" blobs [("Title", PStr "'My Post'")] None None.

End Sample2.

(** ** Proof automation *)

(** Takes apart a hypothesis that says a chain of calls returned. *)
Ltac unfold_ok H :=
  repeat match type of H with
    | bind ?e _ = Ok _ =>
        let E := fresh "E" in
        destruct e eqn:E; cbn [bind] in H; [|discriminate H]
    | match ?x with _ => _ end = Ok _ => destruct x; try discriminate H
    | (if ?x then _ else _) = Ok _ => destruct x
    end.

(** * Properties *)

(** ** Characters, by cases *)

(** A property of characters that a boolean function decides holds of
    every character once it holds of the 256 of them. *)
Lemma forall_ascii (p : ascii -> bool) :
  List.forallb (fun n => p (ascii_of_nat n)) (seq 0 256) = true ->
  forall c, p c = true.
Proof.
  intros H c.
  rewrite List.forallb_forall in H.
  rewrite <- (ascii_nat_embedding c).
  apply H, in_seq.
  pose proof (nat_ascii_bounded c). lia.
Qed.

Lemma pattern_matches_disallowed c :
  Bool.eqb (Re.class_matches pattern c) (negb (Spec.allowed c)) = true.
Proof. revert c. apply forall_ascii. vm_compute. reflexivity. Qed.

Lemma replace_space_char c :
  Ascii.eqb (if Ascii.eqb " " c then "_" else c) (Spec.space_to_underscore c) = true.
Proof. revert c. apply forall_ascii. vm_compute. reflexivity. Qed.

(** A character that survives sanitising is a lower-case letter, a
    digit, a hyphen, an underscore or a dot, and sanitising leaves it
    alone. *)
Lemma sanitized_char_fixed c :
  (let c' := PyStr.lower_char (Spec.space_to_underscore c) in
   implb (Spec.allowed c')
     (Spec.allowed_lower c'
      && negb (Spec.is_upper c') && negb (Spec.is_space c')
      && Ascii.eqb (PyStr.lower_char (Spec.space_to_underscore c')) c')) = true.
Proof. revert c. apply forall_ascii. vm_compute. reflexivity. Qed.

(** ** Sanitising a path *)

Lemma replace_space_is_map s :
  PyStr.replace " " "_" s = PyStr.map Spec.space_to_underscore s.
Proof.
  unfold PyStr.replace.
  induction s as [|c s IH]; [reflexivity|].
  pose proof (replace_space_char c) as Hc.
  apply Ascii.eqb_eq in Hc.
  cbn [PyStr.replace_from PyStr.startswith PyStr.map String.length Nat.sub].
  rewrite <- Hc, IH.
  destruct (Ascii.eqb " " c); reflexivity.
Qed.

Lemma sub_pattern_is_filter s :
  Re.sub pattern EmptyString s = PyStr.filter Spec.allowed s.
Proof.
  induction s as [|c s IH]; [reflexivity|].
  pose proof (pattern_matches_disallowed c) as Hc.
  apply Bool.eqb_prop in Hc.
  cbn [Re.sub PyStr.filter]. rewrite Hc, IH.
  destruct (Spec.allowed c); reflexivity.
Qed.

Lemma sanitize_path_sanitized s : sanitize_path s = Spec.sanitized s.
Proof.
  unfold sanitize_path, Spec.sanitized, PyStr.lower.
  now rewrite replace_space_is_map, sub_pattern_is_filter.
Qed.

Lemma sanitized_cons c s :
  Spec.sanitized (String c s) =
  let c' := PyStr.lower_char (Spec.space_to_underscore c) in
  if Spec.allowed c' then String c' (Spec.sanitized s) else Spec.sanitized s.
Proof. reflexivity. Qed.

Lemma sanitized_output s :
  PyStr.forallb Spec.allowed_lower (Spec.sanitized s) = true
  /\ PyStr.forallb (fun c => negb (Spec.is_upper c)) (Spec.sanitized s) = true
  /\ PyStr.forallb (fun c => negb (Spec.is_space c)) (Spec.sanitized s) = true
  /\ Spec.sanitized (Spec.sanitized s) = Spec.sanitized s.
Proof.
  induction s as [|c s (IH1 & IH2 & IH3 & IH4)]; [now cbn|].
  rewrite sanitized_cons. cbv zeta.
  pose proof (sanitized_char_fixed c) as Hc. cbv zeta in Hc.
  destruct (Spec.allowed (PyStr.lower_char (Spec.space_to_underscore c))) eqn:Ha;
    [|now repeat split].
  cbn [implb] in Hc.
  apply andb_prop in Hc as [Hc Hfix]. apply andb_prop in Hc as [Hc Hsp].
  apply andb_prop in Hc as [Hlow Hup]. apply Ascii.eqb_eq in Hfix.
  repeat split.
  - cbn [PyStr.forallb]. now rewrite Hlow, IH1.
  - cbn [PyStr.forallb]. now rewrite Hup, IH2.
  - cbn [PyStr.forallb]. now rewrite Hsp, IH3.
  - rewrite sanitized_cons. cbv zeta. now rewrite Hfix, Ha, IH4.
Qed.

(** C5, as the code has it: [sanitize_path], in the exporter and in the
    provider, replaces each space with an underscore, lowercases the
    result and removes every character outside [[a-zA-Z0-9-_.]]; so
    the two spaces of [My Post! #1] stay as underscores and the result
    is [my_post_1]. *)
Theorem sanitize_path_spec (s : string) :
  sanitize_path s = Spec.sanitized s
  /\ NotionProvider_sanitize_path s = Spec.sanitized s
  /\ sanitize_path "My Post! #1" = "my_post_1".
Proof.
  split; [|split].
  - apply sanitize_path_sanitized.
  - apply (sanitize_path_sanitized s).
  - reflexivity.
Qed.

(** C5, the example as the claim gives it, fails: the result keeps the
    underscore that stands for the second space. *)
Lemma sanitize_path_example_differs :
  sanitize_path "My Post! #1" = "my_post_1" /\ "my_post_1" <> "my_post1".
Proof. split; [reflexivity | discriminate]. Qed.

(** C9: [sanitize_path] is idempotent, and its output has no space, no
    upper-case letter and only characters of [[a-z0-9-_.]]. *)
Theorem sanitize_path_idempotent (s : string) :
  sanitize_path (sanitize_path s) = sanitize_path s
  /\ PyStr.forallb (fun c => negb (Spec.is_space c)) (sanitize_path s) = true
  /\ PyStr.forallb (fun c => negb (Spec.is_upper c)) (sanitize_path s) = true
  /\ PyStr.forallb Spec.allowed_lower (sanitize_path s) = true.
Proof.
  rewrite !sanitize_path_sanitized.
  destruct (sanitized_output s) as (H1 & H2 & H3 & H4).
  now repeat split.
Qed.

(** ** Styling annotations *)

Section Styling.
Import Base MarkdownStyler.

Lemma truthy_nonempty s : s <> EmptyString -> PyStr.truthy s = true.
Proof. destruct s; [congruence | reflexivity]. Qed.

Lemma truthy_empty s : s = EmptyString -> PyStr.truthy s = false.
Proof. now intros ->. Qed.

(** One turn of the loop: either the early return, or the text of the
    annotation inside its markups is appended to [ts]. *)
Lemma style_loop_cons ts a texts :
  style_loop ts (a :: texts) =
  if PyStr.truthy (plain_text a)
  then style_loop (ts ++ [Spec.styled a]) texts
  else EmptyString.
Proof.
  destruct a as [t b i s u c col h e hl cap tog fi].
  cbn [style_loop plain_text bold italic strikethrough underline Base.code
       href is_equation highlight].
  destruct (PyStr.truthy t); [cbn [negb] | reflexivity].
  destruct h as [[|h0 h]|];
    destruct b, i, s, u, c, e, hl; reflexivity.
Qed.

Lemma append_empty_r s : s ++ EmptyString = s.
Proof. induction s; cbn; congruence. Qed.

Lemma append_assoc (a b c : string) : (a ++ b) ++ c = a ++ b ++ c.
Proof. induction a; cbn; congruence. Qed.

Lemma concat_fold l : PyStr.concat l = fold_right append EmptyString l.
Proof.
  unfold PyStr.concat.
  induction l as [|x [|y l] IH]; [reflexivity| |].
  - cbn. now rewrite append_empty_r.
  - change (x ++ PyStr.join EmptyString (y :: l) = x ++ fold_right append EmptyString (y :: l)).
    now rewrite IH.
Qed.

Lemma style_loop_nonempty texts :
  Forall (fun a => plain_text a <> EmptyString) texts ->
  forall ts,
    style_loop ts texts = PyStr.concat (ts ++ List.map Spec.styled texts).
Proof.
  induction 1 as [|a texts Ha _ IH]; intros ts.
  - cbn [style_loop List.map]. now rewrite app_nil_r.
  - rewrite style_loop_cons, (truthy_nonempty _ Ha), IH, <- app_assoc.
    reflexivity.
Qed.

Lemma style_loop_short_circuit texts :
  Exists (fun a => plain_text a = EmptyString) texts ->
  forall ts, style_loop ts texts = EmptyString.
Proof.
  induction 1 as [a texts Ha | a texts _ IH]; intros ts;
    rewrite style_loop_cons.
  - now rewrite (truthy_empty _ Ha).
  - destruct (PyStr.truthy (plain_text a)); [apply IH | reflexivity].
Qed.

(** C1: when every annotation has a non-empty text, each one is rendered
    with its markup nested in the order bold, italic, strikethrough,
    underline, code, link, equation, highlight, and the sequence renders
    to these renderings one after the other; a bold and italic [x] gives
    an underscore, two stars, [x], two stars, an underscore. *)
Theorem style_nests_in_fixed_order (texts : list ContentWithAnnotation)
  (Htexts : Forall (fun a => plain_text a <> EmptyString) texts) :
  _style_content_with_annotation texts
  = fold_right append EmptyString (List.map Spec.styled texts)
  /\ _style_content_with_annotation [Sample.bold_italic_x] = "_**x**_".
Proof.
  split; [|reflexivity].
  unfold _style_content_with_annotation.
  now rewrite (style_loop_nonempty _ Htexts), concat_fold.
Qed.

Lemma style_nests_in_fixed_order_witness :
  _style_content_with_annotation [Sample.bold_italic_x; plain "y"]
  = "_**x**_y".
Proof.
  refine (eq_trans (proj1 (style_nests_in_fixed_order
                             [Sample.bold_italic_x; plain "y"] _)) _).
  - repeat constructor; discriminate.
  - reflexivity.
Defined.

(** C7: one annotation with an empty text makes the styled rendering of
    the whole sequence empty, whatever the flags and the other
    annotations are. *)
Theorem style_empty_text_short_circuit (texts : list ContentWithAnnotation)
  (Hempty : Exists (fun a => plain_text a = EmptyString) texts) :
  _style_content_with_annotation texts = EmptyString.
Proof. now apply style_loop_short_circuit. Qed.

Lemma style_empty_text_short_circuit_witness :
  _style_content_with_annotation
    [Sample.bold_italic_x; Sample.bold_empty; plain "y"] = EmptyString.
Proof.
  apply style_empty_text_short_circuit.
  apply Exists_cons_tl, Exists_cons_hd. reflexivity.
Defined.

End Styling.

(** ** Splitting *)

Section Splitting.

Lemma rev_string_twice a : forall cur acc,
  PyStr.rev_string acc (PyStr.rev_string cur a) = PyStr.rev_string (a ++ acc) cur.
Proof.
  induction a as [|c a IH]; intros cur acc; [reflexivity|].
  cbn [PyStr.rev_string]. now rewrite IH.
Qed.

Lemma rev_string_acc s : forall acc,
  PyStr.rev_string acc s = PyStr.rev_string EmptyString s ++ acc.
Proof.
  induction s as [|c s IH]; intros acc; [reflexivity|].
  cbn [PyStr.rev_string].
  rewrite (IH (String c acc)), (IH (String c EmptyString)), append_assoc.
  reflexivity.
Qed.

(** The piece that ends after the characters [a] were read on top of
    [cur]. *)
Lemma piece_of cur a :
  PyStr.rev_string EmptyString (PyStr.rev_string cur a)
  = PyStr.rev_string EmptyString cur ++ a.
Proof.
  rewrite rev_string_twice, append_empty_r. apply rev_string_acc.
Qed.

Lemma split_from_free sep m a : forall cur rest,
  Spec.free_of sep a = true ->
  PyStr.split_from sep m cur (a ++ rest)
  = PyStr.split_from sep m (PyStr.rev_string cur a) rest.
Proof.
  induction a as [|c a IH]; intros cur rest Ha; [reflexivity|].
  cbn [Spec.free_of PyStr.forallb] in Ha. apply andb_prop in Ha as [Hc Ha].
  apply negb_true_iff in Hc.
  cbn [append PyStr.split_from PyStr.rev_string]. rewrite Hc.
  now apply IH.
Qed.

Lemma split_from_no_more sep s : forall cur,
  PyStr.split_from sep (Some 0) cur s
  = [PyStr.rev_string EmptyString (PyStr.rev_string cur s)].
Proof.
  induction s as [|c s IH]; intros cur; [reflexivity|].
  cbn [PyStr.split_from PyStr.rev_string].
  destruct (Ascii.eqb c sep); apply IH.
Qed.

(** A text with no separator in it is one piece. *)
Lemma split_free sep a :
  Spec.free_of sep a = true -> PyStr.split sep a = [a].
Proof.
  intros Ha. unfold PyStr.split.
  rewrite <- (append_empty_r a) at 1.
  rewrite (split_from_free _ _ _ _ _ Ha).
  cbn [PyStr.split_from]. now rewrite piece_of.
Qed.

(** The first piece ends at the first separator. *)
Lemma split_at_first sep a rest :
  Spec.free_of sep a = true ->
  PyStr.split sep (a ++ String sep rest) = a :: PyStr.split sep rest.
Proof.
  intros Ha. unfold PyStr.split.
  rewrite (split_from_free _ _ _ _ _ Ha).
  cbn [PyStr.split_from]. rewrite Ascii.eqb_refl, piece_of. reflexivity.
Qed.

Lemma split_max_1_at_first sep a rest :
  Spec.free_of sep a = true ->
  PyStr.split_max sep 1 (a ++ String sep rest) = [a; rest].
Proof.
  intros Ha. unfold PyStr.split_max.
  rewrite (split_from_free _ _ _ _ _ Ha).
  cbn [PyStr.split_from]. rewrite Ascii.eqb_refl, piece_of, split_from_no_more.
  cbn [PyStr.rev_string]. now rewrite piece_of.
Qed.

(** The lines of texts joined by line breaks are these texts, when
    none of them has a line break in it. *)
Lemma lines_join l ls :
  Forall (fun s => Spec.free_of ch_nl s = true) (l :: ls) ->
  PyStr.lines (PyStr.join nl (l :: ls)) = l :: ls.
Proof.
  revert l. induction ls as [|l' ls IH]; intros l H.
  - apply split_free. now inversion H.
  - change (PyStr.join nl (l :: l' :: ls))
      with (l ++ String ch_nl (PyStr.join nl (l' :: ls))).
    inversion H as [|? ? Hl Hls]; subst.
    unfold PyStr.lines in *. rewrite (split_at_first _ _ _ Hl).
    now rewrite IH.
Qed.

End Splitting.

(** ** The dispatch of [process] *)

Section Dispatch.
Import Base MarkdownStyler.

Variable path_exists : string -> bool.

(** [process_blob] is [process] on a blob that is not [None], with
    [process] for the recursive calls. *)
Lemma process_blob_unfold b indent :
  process_blob path_exists b indent
  = process_some path_exists (process path_exists) b indent.
Proof. destruct b; reflexivity. Qed.

Lemma has_renderer_hasattr name :
  Spec.has_renderer name = true -> hasattr name = true.
Proof.
  unfold Spec.has_renderer, hasattr. cbn [existsb Spec.RENDERERS class_body].
  intros H.
  repeat (apply orb_prop in H as [H|H]; [rewrite H, ?orb_true_r; reflexivity|]).
  discriminate.
Qed.

(** A name of the class body that is no renderer makes the call raise
    too, so [process] returns a text only for a variant that has a
    renderer. *)
Lemma process_without_renderer b indent :
  Spec.has_renderer (type b) = false ->
  exists e, process path_exists (Some b) indent = Raise e.
Proof.
  intros H. cbn [process]. rewrite process_blob_unfold.
  unfold process_some.
  destruct (hasattr (type b)); cbn [negb]; [|eauto].
  unfold Spec.has_renderer in H. cbn [existsb Spec.RENDERERS] in H.
  repeat (apply orb_false_elim in H as [?E H]).
  unfold getattr_call.
  rewrite E, E0, E1, E2, E3, E4, E5, E6, E7, E8, E9, E10, E11, E12, E13,
    E14, E15, E16.
  destruct (type b =? "process"); cbn [bind]; eauto.
Qed.

(** C8: [process] of a blob whose variant the styler has no attribute
    for raises the unsupported-variant error and returns no text; of
    [None] it returns the empty text. *)
Theorem process_unsupported_variant (b : Blob) (indent : Z)
  (Hnone : hasattr (type b) = false) :
  process path_exists (Some b) indent = Raise (ValueError (type b))
  /\ (forall s, process path_exists (Some b) indent <> Ok s)
  /\ process path_exists None indent = Ok EmptyString.
Proof.
  assert (H : process path_exists (Some b) indent = Raise (ValueError (type b))).
  { cbn [process]. rewrite process_blob_unfold. unfold process_some.
    now rewrite Hnone. }
  split; [exact H | split; [|reflexivity]].
  intros s. rewrite H. discriminate.
Qed.

End Dispatch.

Lemma process_unsupported_variant_witness :
  MarkdownStyler.process Sample.on_disk (Some Sample.toggle) 0
  = Raise (ValueError "toggle").
Proof.
  apply (process_unsupported_variant Sample.on_disk Sample.toggle 0).
  reflexivity.
Defined.

(** ** Images and captions *)

Section Images.
Import Base MarkdownStyler.

Lemma contains_backslash s :
  PyStr.contains (str1 ch_backslash) s
  = match Spec.at_first_backslash s with Some _ => true | None => false end.
Proof.
  induction s as [|c s IH]; [reflexivity|].
  cbn [PyStr.contains PyStr.startswith str1 Spec.at_first_backslash].
  rewrite IH, (Ascii.eqb_sym c), andb_true_r.
  destruct (Ascii.eqb ch_backslash c); [reflexivity|].
  now destruct (Spec.at_first_backslash s) as [[? ?]|].
Qed.

Lemma at_first_backslash_split s : forall before after,
  Spec.at_first_backslash s = Some (before, after) ->
  s = before ++ String ch_backslash after
  /\ Spec.free_of ch_backslash before = true.
Proof.
  induction s as [|c s IH]; intros before after H; [discriminate|].
  cbn [Spec.at_first_backslash] in H.
  destruct (Ascii.eqb c ch_backslash) eqn:Hc.
  - apply Ascii.eqb_eq in Hc. injection H as <- <-. now subst.
  - destruct (Spec.at_first_backslash s) as [[b a]|]; [|discriminate].
    injection H as <- <-.
    destruct (IH b a eq_refl) as [-> Hfree].
    split; [reflexivity|].
    cbn [Spec.free_of PyStr.forallb]. now rewrite Hc.
Qed.

(** With a backslash in it, a caption splits at the first one and both
    parts are stripped. *)
Lemma parse_caption_backslash s before after :
  Spec.at_first_backslash s = Some (before, after) ->
  parse_caption s = (PyStr.strip before, PyStr.strip after).
Proof.
  intros H. unfold parse_caption.
  rewrite contains_backslash, H.
  destruct (at_first_backslash_split _ _ _ H) as [-> Hfree].
  now rewrite (split_max_1_at_first _ _ _ Hfree).
Qed.

(** With no backslash in it, a caption is returned as it is. *)
Lemma parse_caption_no_backslash s :
  Spec.at_first_backslash s = None ->
  parse_caption s = (s, EmptyString).
Proof.
  intros H. unfold parse_caption. now rewrite contains_backslash, H.
Qed.

(** C4, at a caption with blanks around it and no backslash: the code
    returns the caption with its blanks, where the claim, the branch for
    a backslash and the docstring strip them. *)
Theorem parse_caption_keeps_blanks :
  parse_caption "  Caption text " = ("  Caption text ", EmptyString)
  /\ PyStr.strip "  Caption text " = "Caption text"
  /\ parse_caption "Caption text\Alt text" = ("Caption text", "Alt text")
  /\ parse_caption " Caption text \ Alt text " = ("Caption text", "Alt text").
Proof. repeat split. Qed.

(** C3, as the code has it: the [src] of the shortcode is the file path
    with its first two segments replaced by the one segment [images];
    the segments from the third on are kept. *)
Theorem image_src_replaces_two_segments (path_exists : string -> bool)
  (b : Blob) (indent : Z) (f : string)
  (Hfile : file b = Some f) (Hpath : f <> EmptyString)
  (Hdisk : path_exists f = true) :
  image path_exists b indent
  = Ok (Spec.img_shortcode
          (Spec.images_path 2 f)
          (fst (parse_caption (_style_content_with_annotation (rich_text b))))
          (snd (parse_caption (_style_content_with_annotation (rich_text b))))).
Proof.
  unfold image. rewrite Hfile, Hdisk, (truthy_nonempty _ Hpath).
  cbn [andb assert bind].
  now destruct (parse_caption _).
Qed.

Lemma image_src_replaces_two_segments_witness :
  image Sample.on_disk (Sample.image_of "out/post/post_images/img_1.png" "Cap") 0
  = Ok (Spec.img_shortcode "images/post_images/img_1.png" "Cap" EmptyString).
Proof.
  apply (image_src_replaces_two_segments Sample.on_disk
           (Sample.image_of "out/post/post_images/img_1.png" "Cap") 0
           "out/post/post_images/img_1.png").
  - reflexivity.
  - discriminate.
  - reflexivity.
Defined.

(** C3, as the claim has it, fails: of the path [a/b/c.png] the code
    keeps [c.png] only, where replacing the first segment alone would
    keep [b/c.png]. *)
Lemma image_src_first_segment_differs :
  image Sample.on_disk (Sample.image_of "a/b/c.png" "Cap") 0
  = Ok (Spec.img_shortcode "images/c.png" "Cap" EmptyString)
  /\ Spec.images_path 1 "a/b/c.png" = "images/b/c.png"
  /\ Spec.img_shortcode "images/c.png" "Cap" EmptyString
     <> Spec.img_shortcode (Spec.images_path 1 "a/b/c.png") "Cap" EmptyString.
Proof. repeat split. vm_compute. discriminate. Qed.

End Images.

(** ** Parsing properties *)

Section Properties.
Import NotionParser.

Variable repr_of : pyval -> string.

Lemma lookup_set_same d k v : Py.lookup (Py.set d k v) k = Some v.
Proof.
  induction d as [|[k' v'] d IH]; cbn [Py.set Py.lookup].
  - now rewrite String.eqb_refl.
  - destruct (String.eqb k' k) eqn:E; cbn [Py.lookup]; now rewrite E.
Qed.

Lemma mem_set d k v key :
  Py.mem (Py.set d k v) key = true -> key = k \/ Py.mem d key = true.
Proof.
  unfold Py.mem.
  induction d as [|[k' v'] d IH]; cbn [Py.set Py.lookup].
  - destruct (String.eqb k key) eqn:E; [|discriminate].
    apply String.eqb_eq in E. now left.
  - destruct (String.eqb k' k) eqn:E; cbn [Py.lookup];
      destruct (String.eqb k' key) eqn:E'; auto.
Qed.

Lemma mem_keys d key :
  In key (map fst d) -> Py.mem d key = true.
Proof.
  unfold Py.mem.
  induction d as [|[k' v'] d IH]; cbn [map fst In Py.lookup]; [tauto|].
  intros [->|H]; [now rewrite String.eqb_refl|].
  destruct (String.eqb k' key); [reflexivity | now apply IH].
Qed.

(** One turn of the loop binds at most its own key or [Title]. *)
Lemma loop_body_keys prop value k v st' key :
  loop_body repr_of (prop, value) (k, v) = Ok st' ->
  Py.mem (fst st') key = true ->
  key = k \/ key = "Title" \/ Py.mem prop key = true.
Proof.
  intros H Hmem. unfold loop_body in H.
  unfold_ok H; injection H as <-; cbn [fst] in Hmem;
    try (apply mem_set in Hmem); tauto.
Qed.

Lemma loop_keys items : forall st st' key,
  loop repr_of st items = Ok st' ->
  Py.mem (fst st') key = true ->
  In key (map fst items) \/ key = "Title" \/ Py.mem (fst st) key = true.
Proof.
  induction items as [|[k v] items IH]; intros st st' key H Hmem.
  - injection H as <-. tauto.
  - cbn [loop] in H.
    destruct (loop_body repr_of st (k, v)) as [st1|] eqn:E; [|discriminate].
    cbn [bind] in H. destruct st as [prop value].
    destruct (IH _ _ _ H Hmem) as [Hin|[->|H1]]; cbn [map fst In]; auto.
    destruct (loop_body_keys _ _ _ _ _ _ E H1) as [->|[->|H2]]; auto.
Qed.

Lemma summary_keys metadata prop prop' key :
  summary repr_of metadata prop = Ok prop' ->
  Py.mem prop' key = true ->
  key = "Summary" \/ Py.mem prop key = true.
Proof.
  intros H Hmem. unfold summary in H.
  unfold_ok H; injection H as <-;
    try (apply mem_set in Hmem); tauto.
Qed.

(** The keys of the result are keys of the raw mapping, or one of the
    three the parser writes itself. *)
Lemma parse_properties_keys metadata prop key :
  parse_properties repr_of metadata = Ok prop ->
  Py.mem prop key = true ->
  Py.mem metadata key = true
  \/ key = "Title" \/ key = "Summary" \/ key = "lesedauer".
Proof.
  intros H Hmem. unfold parse_properties in H.
  unfold_ok H. injection H as <-.
  apply mem_set in Hmem as [->|Hmem]; [tauto|].
  match goal with E : summary _ _ _ = Ok _ |- _ =>
    destruct (summary_keys _ _ _ _ E Hmem) as [->|H1]; [tauto|] end.
  match goal with E : loop _ _ _ = Ok _ |- _ =>
    destruct (loop_keys _ _ _ _ E H1) as [Hin|[->|H2]];
      [left; now apply mem_keys | tauto | discriminate H2] end.
Qed.

(** When none of the four tests of the chain holds, the chain assigns
    nothing. *)
Lemma resolve_dict_no_shape c value :
  Py.truthy (Py.dget c "name") = false ->
  Py.truthy (Py.dget c "type") = false ->
  Py.truthy (Py.dget c "prefix") && Py.truthy (Py.dget c "number") = false ->
  Py.truthy (Py.dget c "start") = false ->
  resolve_dict repr_of c value = Ok value.
Proof.
  intros H1 H2 H3 H4. unfold resolve_dict. now rewrite H1, H2, H3, H4.
Qed.

(** C6, at a dict of none of the four shapes (a [unique_id] whose
    prefix is [None]): the unhandled-type error is not raised.  Alone,
    the entry makes the use of the unassigned local [value] raise; after
    an entry that assigned it, the entry silently takes that entry's
    value. *)
Theorem parse_properties_unresolved_dict :
  parse_properties repr_of [("Id", Sample.unique_id PNone 7)]
  = Raise UnboundLocalError
  /\ parse_properties repr_of
       [("Status", Sample.select "Done"); ("Id", Sample.unique_id PNone 7)]
     = Ok [("Status", PStr "Done"); ("Id", PStr "Done");
           ("lesedauer", PStr "ReadingTime")].
Proof. split; reflexivity. Qed.

(** C10, as the code has it: a successful [parse_properties] binds the
    key [lesedauer] to the text [ReadingTime], and the capitalised key
    [Lesedauer] is in its result only when the raw mapping has a
    property of that name. *)
Theorem parse_properties_lesedauer (metadata prop : pydict)
  (Hok : parse_properties repr_of metadata = Ok prop) :
  Py.lookup prop "lesedauer" = Some (PStr "ReadingTime")
  /\ (Py.mem prop "Lesedauer" = true -> Py.mem metadata "Lesedauer" = true).
Proof.
  split.
  - unfold parse_properties in Hok. unfold_ok Hok. injection Hok as <-.
    apply lookup_set_same.
  - intros Hmem.
    destruct (parse_properties_keys _ _ _ Hok Hmem) as [H|[H|[H|H]]];
      [exact H | discriminate H ..].
Qed.

End Properties.

Lemma parse_properties_lesedauer_witness :
  Py.lookup [("Status", PStr "Done"); ("lesedauer", PStr "ReadingTime")]
    "lesedauer" = Some (PStr "ReadingTime").
Proof.
  apply (parse_properties_lesedauer Sample.no_repr
           [("Status", Sample.select "Done")]
           [("Status", PStr "Done"); ("lesedauer", PStr "ReadingTime")]).
  reflexivity.
Defined.

(** C10, as the claim has it, fails: a raw property named [Lesedauer]
    comes out of the extraction under that name. *)
Lemma parse_properties_produces_Lesedauer :
  NotionParser.parse_properties Sample.no_repr [("Lesedauer", Sample.number 5)]
  = Ok [("Lesedauer", PInt 5); ("lesedauer", PStr "ReadingTime")]
  /\ Py.mem [("Lesedauer", PInt 5); ("lesedauer", PStr "ReadingTime")]
       "Lesedauer" = true.
Proof. split; reflexivity. Qed.

(** ** Tables *)

Section Tables.
Import Base MarkdownStyler.

Variable path_exists : string -> bool.

Lemma forallb_append p a b :
  PyStr.forallb p (a ++ b) = PyStr.forallb p a && PyStr.forallb p b.
Proof.
  induction a as [|c a IH]; [reflexivity|].
  cbn [append PyStr.forallb]. now rewrite IH, andb_assoc.
Qed.

Lemma count_append p a b :
  PyStr.count p (a ++ b) = PyStr.count p a + PyStr.count p b.
Proof.
  induction a as [|c a IH]; [reflexivity|].
  cbn [append PyStr.count]. rewrite IH. lia.
Qed.

Lemma plain_cell_free s :
  Spec.plain_cell s = true -> Spec.free_of ch_nl s = true /\ Spec.pipes s = 0.
Proof.
  unfold Spec.plain_cell, Spec.free_of, Spec.pipes, Spec.is_newline.
  induction s as [|c s IH]; [now split|].
  cbn [PyStr.forallb PyStr.count]. intros H.
  apply andb_prop in H as [Hc Hs]. apply andb_prop in Hc as [Hp Hn].
  destruct (IH Hs) as [IH1 IH2]. rewrite Hn, IH1, IH2.
  apply negb_true_iff in Hp. now rewrite Hp.
Qed.

(** Joining plain cells with [ | ] adds one pipe between two cells and
    no line break. *)
Lemma join_cells cells :
  Forall (fun c => Spec.plain_cell c = true) cells ->
  Spec.free_of ch_nl (PyStr.join " | " cells) = true
  /\ Spec.pipes (PyStr.join " | " cells) = List.length cells - 1.
Proof.
  induction 1 as [|c cells Hc Hcells [IH1 IH2]]; [now split|].
  destruct (plain_cell_free _ Hc) as [Hfree Hpipes].
  destruct cells as [|c' cells]; [now split|].
  change (PyStr.join " | " (c :: c' :: cells))
    with (c ++ " | " ++ PyStr.join " | " (c' :: cells)).
  unfold Spec.free_of, Spec.pipes in *.
  rewrite !forallb_append, !count_append, Hfree, Hpipes, IH1, IH2.
  split; [reflexivity|]. cbn. lia.
Qed.

Lemma row_line_plain r :
  truthy_list (table_cells r) = true ->
  Forall (fun c => Spec.plain_cell c = true) (Spec.cells_of r) ->
  Spec.free_of ch_nl (Spec.row_line r) = true
  /\ Spec.pipes (Spec.row_line r) = List.length (Spec.cells_of r) + 1.
Proof.
  intros Hne Hcells. destruct (join_cells _ Hcells) as [H1 H2].
  unfold Spec.row_line, Spec.free_of, Spec.pipes in *.
  rewrite !forallb_append, !count_append, H1, H2.
  split; [reflexivity|].
  unfold Spec.cells_of. rewrite length_map.
  destruct (table_cells r) as [[|? ?]|]; try discriminate. cbn. lia.
Qed.

Lemma repeat_dashes n :
  Spec.free_of ch_nl (PyStr.repeat_nat "---|" n) = true
  /\ Spec.pipes (PyStr.repeat_nat "---|" n) = n.
Proof.
  induction n as [|n [IH1 IH2]]; [now split|].
  cbn [PyStr.repeat_nat]. unfold Spec.free_of, Spec.pipes in *.
  rewrite forallb_append, count_append, IH1, IH2. now split.
Qed.

Lemma separator_line_plain w :
  Spec.free_of ch_nl (Spec.separator_line w) = true
  /\ Spec.pipes (Spec.separator_line w) = Z.to_nat w + 1.
Proof.
  destruct (repeat_dashes (Z.to_nat w)) as [H1 H2].
  unfold Spec.separator_line, PyStr.repeat, Spec.free_of, Spec.pipes in *.
  rewrite forallb_append, count_append, H1, H2. split; [reflexivity|].
  cbn. lia.
Qed.

(** A row line and the separator line differ at their second
    character. *)
Lemma row_line_not_separator r w :
  (1 <= w)%Z -> Spec.row_line r <> Spec.separator_line w.
Proof.
  intros Hw. unfold Spec.row_line, Spec.separator_line, PyStr.repeat.
  destruct (Z.to_nat w) as [|n] eqn:E; [lia|].
  cbn. discriminate.
Qed.

Lemma row_line_has_pipe r : PyStr.contains "|" (Spec.row_line r) = true.
Proof. reflexivity. Qed.

Lemma separator_line_has_pipe w : PyStr.contains "|" (Spec.separator_line w) = true.
Proof. reflexivity. Qed.

(** The styler renders a row to a line break and the line of the row. *)
Lemma process_row r indent :
  Spec.is_row r ->
  process path_exists (Some r) indent = Ok (nl ++ Spec.row_line r).
Proof.
  intros [Htype Hcells]. cbn [process]. rewrite process_blob_unfold.
  unfold process_some. rewrite Htype.
  change (hasattr "table_row") with true. cbn [negb].
  change (getattr_call path_exists (process path_exists) "table_row" r indent)
    with (table_row r indent).
  unfold table_row. now rewrite Hcells.
Qed.

Lemma process_rows indent rows :
  Forall Spec.is_row rows ->
  for_each (fun child_blob => process path_exists (Some child_blob) indent) rows
  = Ok (List.map (fun r => nl ++ Spec.row_line r) rows).
Proof.
  induction 1 as [|r rows Hr _ IH]; [reflexivity|].
  cbn [for_each List.map] in *. now rewrite (process_row _ _ Hr), IH.
Qed.

(** Texts that each start a new line, put one after the other between
    a first and a last text, are these texts joined by line breaks. *)
Lemma join_lines ls : forall x y,
  x ++ PyStr.concat (List.map (fun l => nl ++ l) ls) ++ nl ++ y
  = PyStr.join nl (x :: ls ++ [y]).
Proof.
  induction ls as [|l ls IH]; intros x y; [reflexivity|].
  rewrite concat_fold. cbn [List.map fold_right].
  rewrite <- concat_fold.
  change (PyStr.join nl (x :: (l :: ls) ++ [y]))
    with (x ++ nl ++ PyStr.join nl (l :: ls ++ [y])).
  rewrite <- IH, !append_assoc. reflexivity.
Qed.

Lemma filter_row_lines rows tail :
  filter (PyStr.contains "|") (List.map Spec.row_line rows ++ tail)
  = (List.map Spec.row_line rows ++ filter (PyStr.contains "|") tail)%list.
Proof.
  induction rows as [|r rows IH]; [reflexivity|].
  cbn [List.map app filter]. now rewrite row_line_has_pipe, IH.
Qed.

Lemma count_occ_row_lines w rows :
  (1 <= w)%Z ->
  count_occ string_dec (List.map Spec.row_line rows) (Spec.separator_line w) = 0.
Proof.
  intros Hw. induction rows as [|r rows IH]; [reflexivity|].
  cbn [List.map]. rewrite count_occ_cons_neq; [exact IH|].
  now apply row_line_not_separator.
Qed.

Lemma separator_line_not_tag w :
  EmptyString <> Spec.separator_line w
  /\ TABLE_OPEN <> Spec.separator_line w
  /\ TABLE_CLOSE <> Spec.separator_line w.
Proof. repeat split; discriminate. Qed.

(** C2, as the code has it.  A table of width [w >= 1] whose children
    are rows with at least one cell each renders to a blank line, the
    opening tag, the line of the first row, one separator line of [w]
    cells of three dashes, the lines of the other rows and the closing
    tag.  When no styled cell has a pipe or a line break in it, these
    are the lines of the output, the separator line occurs once among
    them, the lines with a pipe are the row lines and the separator,
    a row line has one pipe more than the row has cells and the
    separator has [w + 1]; so two rows of three cells in a table of
    width 3 give three such lines of four pipes each. *)
Theorem table_separator_after_first_row
  (t : Blob) (indent : Z) (w : Z) (first : Blob) (others : list Blob)
  (Hwidth : table_width t = Some w) (Hw : (1 <= w)%Z)
  (Hkids : children t = Some (first :: others))
  (Hrows : Forall Spec.is_row (first :: others)) :
  exists out,
    table (process path_exists) t indent = Ok out
    /\ out = PyStr.join nl
               (EmptyString :: TABLE_OPEN :: Spec.row_line first
                :: Spec.separator_line w
                :: List.map Spec.row_line others ++ [TABLE_CLOSE])
    /\ (Forall (fun r => Forall (fun c => Spec.plain_cell c = true)
                            (Spec.cells_of r)) (first :: others) ->
        PyStr.lines out
        = EmptyString :: TABLE_OPEN :: Spec.row_line first
          :: Spec.separator_line w
          :: List.map Spec.row_line others ++ [TABLE_CLOSE]
        /\ count_occ string_dec (PyStr.lines out) (Spec.separator_line w) = 1
        /\ Spec.pipe_lines out
           = Spec.row_line first :: Spec.separator_line w
             :: List.map Spec.row_line others
        /\ Spec.pipes (Spec.separator_line w) = Z.to_nat w + 1
        /\ Forall (fun r => Spec.pipes (Spec.row_line r)
                            = List.length (Spec.cells_of r) + 1)
             (first :: others)
        /\ (w = 3%Z -> List.length others = 1 ->
            Forall (fun r => List.length (Spec.cells_of r) = 3)
              (first :: others) ->
            List.length (Spec.pipe_lines out) = 3
            /\ Forall (fun l => Spec.pipes l = 4) (Spec.pipe_lines out))).
Proof.
  pose (rows := Spec.row_line first :: Spec.separator_line w
                :: List.map Spec.row_line others).
  (* what the code returns *)
  assert (Hout : table (process path_exists) t indent
                 = Ok (PyStr.join nl (EmptyString :: TABLE_OPEN :: rows ++ [TABLE_CLOSE]))).
  { unfold table. rewrite Hwidth, Hkids.
    replace (w =? 0)%Z with false by (symmetry; apply Z.eqb_neq; lia).
    cbn [negb assert bind]. rewrite (process_rows _ _ Hrows).
    cbn [bind List.map List.length Nat.leb list_insert firstn skipn app].
    f_equal.
    change (PyStr.join nl (EmptyString :: TABLE_OPEN :: rows ++ [TABLE_CLOSE]))
      with (nl ++ PyStr.join nl (TABLE_OPEN :: rows ++ [TABLE_CLOSE])).
    rewrite <- join_lines. unfold rows. cbn [List.map].
    rewrite map_map. reflexivity. }
  eexists. split; [exact Hout|].
  split; [reflexivity|].
  intros Hcells.
  (* the lines have no line break in them *)
  assert (Hfree : Forall (fun s => Spec.free_of ch_nl s = true)
                    (EmptyString :: TABLE_OPEN :: rows ++ [TABLE_CLOSE])).
  { constructor; [reflexivity|]. constructor; [reflexivity|].
    unfold rows. inversion Hrows as [|? ? [_ Hf] Hrs]; subst.
    inversion Hcells as [|? ? Hcf Hcs]; subst.
    constructor; [now apply row_line_plain|].
    constructor; [apply separator_line_plain|].
    apply Forall_app. split; [|now repeat constructor].
    clear - Hrs Hcs. induction others as [|r rs IH]; [constructor|].
    inversion Hrs as [|? ? [_ Hr] Hrs']; inversion Hcs; subst.
    constructor; [now apply row_line_plain | now apply IH]. }
  assert (Hpipes : Forall (fun r => Spec.pipes (Spec.row_line r)
                              = List.length (Spec.cells_of r) + 1) (first :: others)).
  { clear - Hrows Hcells. induction Hrows as [|r rs [_ Hr] _ IH]; [constructor|].
    inversion Hcells; subst.
    constructor; [now apply row_line_plain | now apply IH]. }
  assert (Hlines : PyStr.lines (PyStr.join nl (EmptyString :: TABLE_OPEN :: rows ++ [TABLE_CLOSE]))
                   = EmptyString :: TABLE_OPEN :: rows ++ [TABLE_CLOSE])
    by (now apply lines_join).
  assert (Hpl : Spec.pipe_lines (PyStr.join nl (EmptyString :: TABLE_OPEN :: rows ++ [TABLE_CLOSE]))
                = rows).
  { unfold Spec.pipe_lines. rewrite Hlines. unfold rows.
    cbn [filter app].
    change (PyStr.contains "|" EmptyString) with false.
    change (PyStr.contains "|" TABLE_OPEN) with false.
    rewrite row_line_has_pipe, separator_line_has_pipe, filter_row_lines.
    cbn [filter]. change (PyStr.contains "|" TABLE_CLOSE) with false.
    now rewrite app_nil_r. }
  split; [exact Hlines|].
  split; [|split; [exact Hpl|]].
  { rewrite Hlines. unfold rows. cbn [app].
    destruct (separator_line_not_tag w) as (H1 & H2 & H3).
    rewrite count_occ_cons_neq by exact H1.
    rewrite count_occ_cons_neq by exact H2.
    rewrite count_occ_cons_neq by (now apply row_line_not_separator).
    rewrite count_occ_cons_eq by reflexivity.
    rewrite count_occ_app, (count_occ_row_lines _ _ Hw).
    now rewrite count_occ_cons_neq by exact H3. }
  split; [apply separator_line_plain|].
  split; [exact Hpipes|].
  intros -> Hlen H3. rewrite Hpl. unfold rows.
  split; [cbn [List.length]; now rewrite length_map, Hlen|].
  inversion Hpipes as [|? ? Hp Hps]; inversion H3 as [|? ? Hc Hcs]; subst.
  constructor; [rewrite Hp, Hc; reflexivity|].
  constructor; [now rewrite (proj2 (separator_line_plain 3))|].
  clear - Hps Hcs. induction others as [|r rs IH]; [constructor|].
  inversion Hps; inversion Hcs; subst.
  constructor; [lia | now apply IH].
Qed.

End Tables.

Lemma table_separator_after_first_row_witness :
  exists out,
    MarkdownStyler.table (MarkdownStyler.process Sample.on_disk)
      Sample.table_2x3 0 = Ok out
    /\ Spec.pipe_lines out = ["| a | b | c |"; "|---|---|---|"; "| 1 | 2 | 3 |"]
    /\ List.length (Spec.pipe_lines out) = 3
    /\ Forall (fun l => Spec.pipes l = 4) (Spec.pipe_lines out).
Proof.
  destruct (table_separator_after_first_row Sample.on_disk Sample.table_2x3 0 3
              (Sample.row ["a"; "b"; "c"]) [Sample.row ["1"; "2"; "3"]])
    as (out & Hout & _ & Hplain).
  - reflexivity.
  - discriminate.
  - reflexivity.
  - repeat constructor.
  - exists out.
    destruct Hplain as (_ & _ & Hpl & _ & _ & H23); [repeat constructor|].
    destruct H23 as [Hlen Hpipes]; [reflexivity | reflexivity | repeat constructor|].
    repeat split; assumption.
Defined.

(** C2, as the claim has it, fails: a pipe in a cell of a table of two
    rows of three cells gives a row line of five pipes. *)
Lemma table_2x3_pipe_in_cell :
  exists out,
    MarkdownStyler.table (MarkdownStyler.process Sample.on_disk)
      Sample.table_2x3_pipe 0 = Ok out
    /\ Base.table_width Sample.table_2x3_pipe = Some 3%Z
    /\ List.map (fun r => List.length (Spec.cells_of r))
         (elements (Base.children Sample.table_2x3_pipe)) = [3; 3]
    /\ Spec.pipe_lines out
       = ["| a|b | c | d |"; "|---|---|---|"; "| 1 | 2 | 3 |"]
    /\ List.map Spec.pipes (Spec.pipe_lines out) = [5; 4; 4].
Proof. eexists. split; [reflexivity|]. repeat split. Qed.

(** * Further properties of the code *)

(** ** Helpers on texts and loops *)

Section MoreTexts.

Lemma startswith_append p x : PyStr.startswith p (p ++ x) = true.
Proof.
  induction p as [|c p IH]; [now destruct x|].
  cbn [append PyStr.startswith]. now rewrite Ascii.eqb_refl, IH.
Qed.

Lemma drop_append p x : PyStr.drop (String.length p) (p ++ x) = x.
Proof. induction p as [|c p IH]; [now destruct x | exact IH]. Qed.

Lemma startswith_split p : forall u,
  PyStr.startswith p u = true -> u = p ++ PyStr.drop (String.length p) u.
Proof.
  induction p as [|c p IH]; intros u H; [now destruct u|].
  destruct u as [|a u]; [discriminate|].
  cbn [PyStr.startswith] in H. apply andb_prop in H as [Hc Hp].
  apply Ascii.eqb_eq in Hc. subst a.
  cbn [append String.length PyStr.drop]. now rewrite <- (IH _ Hp).
Qed.

(** A loop over calls raises as soon as one call does. *)
Lemma for_each_raises {A B : Type} (f : A -> result B) (x : A) (l : list A) :
  In x l -> (exists e, f x = Raise e) -> exists e, for_each f l = Raise e.
Proof.
  intros Hin [e He]. induction l as [|y l IH]; [contradiction|].
  cbn [for_each]. destruct (f y) as [b|e'] eqn:Ey; cbn [bind]; [|eauto].
  destruct Hin as [->|Hin]; [congruence|].
  destruct (IH Hin) as [e'' ->]. cbn [bind]. eauto.
Qed.

Lemma bind_raises {A B : Type} (r : result A) (k : A -> result B) :
  (exists e, r = Raise e) -> exists e, bind r k = Raise e.
Proof. intros [e ->]. cbn. eauto. Qed.

End MoreTexts.

(** ** Videos, images and tables at their edges *)

Section RendererEdges.
Import Base MarkdownStyler.

Variable path_exists : string -> bool.

(** X1: [video] returns exactly when the styled title is not empty and
    the url starts with the short-link prefix, and then the shortcode
    carries what follows the prefix as id; with an empty title it
    raises the assertion error whatever the url is, and with a title
    and no url the attribute error. *)
Theorem video_shortcode_iff (b : Blob) (indent : Z) :
  let title := _style_content_with_annotation (rich_text b) in
  (forall s,
     video b indent = Ok s <->
     exists video_id,
       title <> EmptyString
       /\ url b = Some (YOUTU_BE ++ video_id)
       /\ s = Rendered.youtube_shortcode video_id title)
  /\ (title = EmptyString -> video b indent = Raise AssertionError)
  /\ (title <> EmptyString -> url b = None ->
      video b indent = Raise AttributeError).
Proof.
  cbv zeta. unfold video.
  destruct (_style_content_with_annotation (rich_text b)) as [|c t] eqn:Et;
    cbn [String.eqb negb assert bind].
  - split; [|split].
    + intros s. split; [discriminate|].
      intros (v & H & _). congruence.
    + reflexivity.
    + congruence.
  - split; [|split].
    + intros s. split.
      * intros H. destruct (url b) as [u|]; [|discriminate].
        destruct (PyStr.startswith YOUTU_BE u) eqn:Hu; [|discriminate].
        cbn [assert bind] in H. injection H as <-.
        exists (PyStr.drop (String.length YOUTU_BE) u).
        split; [discriminate|]. split; [|reflexivity].
        f_equal. now apply startswith_split.
      * intros (v & _ & -> & ->).
        rewrite startswith_append, drop_append. reflexivity.
    + discriminate.
    + intros _ ->. reflexivity.
Qed.

(** X2: a table without a width, or of width 0, raises the assertion
    error whatever its children are; a table of another width without
    children renders to the two tags on their lines, with no separator
    line and no line with a pipe. *)
Theorem table_edge_cases (process : option Blob -> Z -> result string)
  (t : Blob) (indent : Z) :
  (table_width t = None \/ table_width t = Some 0%Z ->
   table process t indent = Raise AssertionError)
  /\ (forall w, table_width t = Some w -> w <> 0%Z ->
      truthy_list (children t) = false ->
      table process t indent = Ok (nl ++ TABLE_OPEN ++ nl ++ TABLE_CLOSE)
      /\ Spec.pipe_lines (nl ++ TABLE_OPEN ++ nl ++ TABLE_CLOSE) = []).
Proof.
  unfold table. split.
  - intros [-> | ->]; reflexivity.
  - intros w -> Hw Hkids.
    apply Z.eqb_neq in Hw. rewrite Hw. cbn [negb assert bind].
    split; [|reflexivity].
    destruct (children t) as [[|k ks]|]; [reflexivity | discriminate | reflexivity].
Qed.

(** X3: a row without cells raises the assertion error, and a table
    that has such a row among its children does not render. *)
Theorem table_with_empty_row (t : Blob) (indent : Z) (kids : list Blob)
  (r : Blob)
  (Hkids : children t = Some kids) (Hin : In r kids)
  (Hrow : type r = "table_row")
  (Hcells : truthy_list (table_cells r) = false) :
  table_row r indent = Raise AssertionError
  /\ exists e, table (process path_exists) t indent = Raise e.
Proof.
  assert (Hr : table_row r indent = Raise AssertionError)
    by (unfold table_row; now rewrite Hcells).
  split; [exact Hr|].
  unfold table. destruct (table_width t) as [w|]; [|eauto].
  destruct (negb (w =? 0)%Z); cbn [assert bind]; [|eauto].
  rewrite Hkids. destruct kids as [|k ks]; [contradiction|].
  apply bind_raises, bind_raises.
  apply (for_each_raises _ r); [exact Hin|].
  cbn [process]. rewrite process_blob_unfold. unfold process_some.
  rewrite Hrow. change (hasattr "table_row") with true. cbn [negb].
  change (getattr_call path_exists (process path_exists) "table_row" r indent)
    with (table_row r indent).
  rewrite Hr. cbn [bind]. eauto.
Qed.

End RendererEdges.

Lemma table_with_empty_row_witness :
  exists e,
    MarkdownStyler.table (MarkdownStyler.process Sample.on_disk)
      (Sample.table_of 2 [Sample.row ["a"; "b"]; Sample.row []]) 0 = Raise e.
Proof.
  apply (table_with_empty_row Sample.on_disk
           (Sample.table_of 2 [Sample.row ["a"; "b"]; Sample.row []]) 0
           [Sample.row ["a"; "b"]; Sample.row []] (Sample.row [])).
  - reflexivity.
  - right. left. reflexivity.
  - reflexivity.
  - reflexivity.
Defined.

(** ** What [process] returns, and what stops it *)

Section ProcessShape.
Import Base MarkdownStyler.

Variable path_exists : string -> bool.

(** X4: whenever [process] returns a text for a blob, the blob is of one
    of the eighteen variants that have a renderer and the text starts
    with a line break. *)
Theorem process_returns_for_renderers (b : Blob) (indent : Z) (s : string)
  (Hok : process path_exists (Some b) indent = Ok s) :
  Spec.has_renderer (type b) = true
  /\ exists body, s = nl ++ body.
Proof.
  split.
  - destruct (Spec.has_renderer (type b)) eqn:E; [reflexivity|].
    destruct (process_without_renderer path_exists b indent E) as [e He].
    congruence.
  - cbn [process] in Hok. rewrite process_blob_unfold in Hok.
    unfold process_some in Hok.
    destruct (hasattr (type b)); cbn [negb] in Hok; [|discriminate].
    destruct (getattr_call _ _ _ _ _) as [body|]; [|discriminate].
    cbn [bind] in Hok. injection Hok as <-. now exists body.
Qed.

Lemma unsupported_raises c indent :
  hasattr (type c) = false ->
  exists e, process path_exists (Some c) indent = Raise e.
Proof.
  intros H. cbn [process]. rewrite process_blob_unfold. unfold process_some.
  rewrite H. cbn. eauto.
Qed.

Lemma children_raise (f : Blob -> result string) kids c :
  In c kids -> (exists e, f c = Raise e) ->
  exists e,
    match Some kids with
    | Some ((_ :: _) as l) => for_each f l
    | _ => Ok []
    end = Raise e.
Proof.
  intros Hin Hc. destruct kids as [|k ks]; [contradiction|].
  now apply (for_each_raises f c).
Qed.

(** X5: a blob of a variant that renders its children does not render
    when one of its children is of a variant the styler does not
    support: the error of a child is not swallowed. *)
Theorem unsupported_child_stops_rendering (b : Blob) (indent : Z)
  (kids : list Blob) (c : Blob)
  (Hvariant : In (type b) Rendered.RENDERS_CHILDREN)
  (Hkids : children b = Some kids) (Hin : In c kids)
  (Hchild : hasattr (type c) = false) :
  exists e, process path_exists (Some b) indent = Raise e.
Proof.
  assert (Hc : forall i, exists e, process path_exists (Some c) i = Raise e)
    by (intros i; now apply unsupported_raises).
  cbn [process]. rewrite process_blob_unfold. unfold process_some.
  cbn [Rendered.RENDERS_CHILDREN In] in Hvariant.
  repeat destruct Hvariant as [<- | Hvariant]; try contradiction;
    match goal with
    | |- context [hasattr ?n] => change (hasattr n) with true
    end; cbn [negb]; apply bind_raises;
    match goal with
    | |- context [getattr_call ?pe ?pr ?n ?bl ?i] =>
        let r := eval cbv beta iota delta
                   [getattr_call String.eqb Ascii.eqb Bool.eqb] in
                   (getattr_call pe pr n bl i) in
        change (getattr_call pe pr n bl i) with r
    end;
    unfold heading_1, heading_2, heading_3, equation, code,
      bulleted_list_item, numbered_list_item, to_do, column, column_list,
      _list_item, paragraph, table.
  1-11: repeat (apply bind_raises); rewrite Hkids;
    apply (children_raise _ kids c Hin); apply Hc.
  destruct (table_width b) as [w|]; [|eauto].
  destruct (negb (w =? 0)%Z); cbn [assert bind]; [|eauto].
  apply bind_raises. rewrite Hkids.
  destruct kids as [|k ks]; [contradiction|].
  apply bind_raises. apply (for_each_raises _ c); [exact Hin | apply Hc].
Qed.

End ProcessShape.

Lemma process_returns_for_renderers_witness :
  Spec.has_renderer "bulleted_list_item" = true
  /\ exists body, (nl ++ "- one")%string = (nl ++ body)%string.
Proof.
  apply (process_returns_for_renderers Sample.on_disk
           (Sample2.bullet "one" []) 0).
  reflexivity.
Defined.

Lemma unsupported_child_stops_rendering_witness :
  exists e,
    MarkdownStyler.process Sample.on_disk
      (Some (Sample2.block "paragraph" "intro"
               (Some [Sample2.bullet "one" []; Sample.toggle]))) 0 = Raise e.
Proof.
  apply (unsupported_child_stops_rendering Sample.on_disk
           (Sample2.block "paragraph" "intro"
              (Some [Sample2.bullet "one" []; Sample.toggle])) 0
           [Sample2.bullet "one" []; Sample.toggle] Sample.toggle).
  - left. reflexivity.
  - reflexivity.
  - right. left. reflexivity.
  - reflexivity.
Defined.

(** ** More on sanitising and captions *)

Section SanitizeMore.

Lemma map_append f a b : PyStr.map f (a ++ b) = PyStr.map f a ++ PyStr.map f b.
Proof. induction a as [|c a IH]; cbn; congruence. Qed.

Lemma filter_append p a b :
  PyStr.filter p (a ++ b) = PyStr.filter p a ++ PyStr.filter p b.
Proof.
  induction a as [|c a IH]; [reflexivity|].
  cbn [append PyStr.filter]. rewrite IH. now destruct (p c).
Qed.

Lemma filter_length p s : String.length (PyStr.filter p s) <= String.length s.
Proof.
  induction s as [|c s IH]; [constructor|].
  cbn [PyStr.filter]. destruct (p c); cbn [String.length]; lia.
Qed.

Lemma map_length f s : String.length (PyStr.map f s) = String.length s.
Proof. induction s as [|c s IH]; cbn; congruence. Qed.

(** A sanitised name has no slash in it. *)
Lemma sanitize_path_no_slash s : Spec.free_of "/" (sanitize_path s) = true.
Proof.
  rewrite sanitize_path_sanitized.
  destruct (sanitized_output s) as (H & _). unfold Spec.free_of.
  induction (Spec.sanitized s) as [|c t IH]; [reflexivity|].
  cbn [PyStr.forallb] in *. apply andb_prop in H as [Hc Ht].
  rewrite (IH Ht), andb_true_r.
  destruct (Ascii.eqb c "/") eqn:E; [|reflexivity].
  apply Ascii.eqb_eq in E. subst c. discriminate Hc.
Qed.

(** X7: [sanitize_path] works character by character: the sanitised
    form of two texts put together is their sanitised forms put
    together, and it is never longer than the text. *)
Theorem sanitize_path_append (a b : string) :
  sanitize_path (a ++ b) = sanitize_path a ++ sanitize_path b
  /\ String.length (sanitize_path a) <= String.length a.
Proof.
  rewrite !sanitize_path_sanitized. unfold Spec.sanitized. split.
  - now rewrite !map_append, filter_append.
  - eapply Nat.le_trans; [apply filter_length|]. now rewrite !map_length.
Qed.

End SanitizeMore.

Section CaptionMore.
Import MarkdownStyler.

(** X8: a caption with a backslash in it is cut at the first one; the
    caption is what stands before it and the alt text all that stands
    after it, later backslashes included, both stripped of the blanks
    around them. *)
Theorem parse_caption_at_first_backslash (s before after : string)
  (Hcut : Spec.at_first_backslash s = Some (before, after)) :
  s = before ++ String ch_backslash after
  /\ Spec.free_of ch_backslash before = true
  /\ parse_caption s = (PyStr.strip before, PyStr.strip after).
Proof.
  destruct (at_first_backslash_split _ _ _ Hcut) as [Hs Hfree].
  repeat split; [exact Hs | exact Hfree |].
  now apply parse_caption_backslash.
Qed.

End CaptionMore.

Lemma parse_caption_at_first_backslash_witness :
  MarkdownStyler.parse_caption " A view \ from\above "
  = (PyStr.strip " A view ", PyStr.strip " from\above ").
Proof.
  apply (parse_caption_at_first_backslash
           " A view \ from\above " " A view " " from\above ").
  reflexivity.
Defined.

(** ** More on parsing properties *)

Section PropertiesMore.
Import NotionParser.

Variable repr_of : pyval -> string.

Lemma lookup_set_other d k v key :
  k <> key -> Py.lookup (Py.set d k v) key = Py.lookup d key.
Proof.
  intros Hne. induction d as [|[k' v'] d IH]; cbn [Py.set Py.lookup].
  - destruct (String.eqb k key) eqn:E; [|reflexivity].
    apply String.eqb_eq in E. contradiction.
  - destruct (String.eqb k' k) eqn:E; cbn [Py.lookup].
    + apply String.eqb_eq in E. subst k'.
      destruct (String.eqb k key) eqn:E'; [|reflexivity].
      apply String.eqb_eq in E'. contradiction.
    + now rewrite IH.
Qed.

Lemma subscript_dget d k :
  Py.truthy (Py.dget d k) = true ->
  Py.subscript (PDict d) k = Ok (Py.dget d k).
Proof.
  unfold Py.dget, Py.subscript. now destruct (Py.lookup d k).
Qed.

(** The loop raises when a turn raises whatever the locals are. *)
Lemma loop_raises kv items :
  In kv items ->
  (forall st, exists e, loop_body repr_of st kv = Raise e) ->
  forall st, exists e, loop repr_of st items = Raise e.
Proof.
  intros Hin Hkv. induction items as [|kv' items IH]; [contradiction|].
  intros st. cbn [loop].
  destruct Hin as [->|Hin].
  - destruct (Hkv st) as [e ->]. cbn. eauto.
  - destruct (loop_body repr_of st kv') as [st'|e]; cbn [bind]; [|eauto].
    now apply IH.
Qed.

Lemma parse_properties_raises kv metadata :
  In kv metadata ->
  (forall st, exists e, loop_body repr_of st kv = Raise e) ->
  exists e, parse_properties repr_of metadata = Raise e.
Proof.
  intros Hin Hkv. unfold parse_properties.
  destruct (loop_raises _ _ Hin Hkv ([], None)) as [e ->]. cbn. eauto.
Qed.

(** X9: every key of the result of [parse_properties] is a key of the
    raw mapping or one of the three keys the parser writes itself,
    [Title], [Summary] and [lesedauer]. *)
Theorem parse_properties_known_keys (metadata prop : pydict) (key : string)
  (Hok : parse_properties repr_of metadata = Ok prop)
  (Hkey : Py.mem prop key = true) :
  Py.mem metadata key = true
  \/ key = "Title" \/ key = "Summary" \/ key = "lesedauer".
Proof. exact (parse_properties_keys repr_of _ _ _ Hok Hkey). Qed.

(** X10: [parse_properties] never returns for a mapping that has an
    entry which is no dict or has no [type] key. *)
Theorem parse_properties_needs_type (metadata : pydict) (k : string) (v : pyval)
  (Hin : In (k, v) metadata)
  (Hty : exists e, Py.subscript v "type" = Raise e) :
  exists e, parse_properties repr_of metadata = Raise e.
Proof.
  apply (parse_properties_raises (k, v)); [exact Hin|].
  intros [prop value]. destruct Hty as [e He].
  unfold loop_body. rewrite He. cbn. eauto.
Qed.

(** X11: a property whose typed value is a float other than zero makes
    its turn of the loop raise the unhandled-type error, so
    [parse_properties] returns for no mapping that has one; the float
    zero is false and is copied like [None] or an empty text. *)
Theorem parse_properties_float (k ty : string) (d : pydict) (m e : Z)
  (Hty : Py.lookup d "type" = Some (PStr ty))
  (Hrel : PyStr.contains ty "relation" = false)
  (Htitle : ty <> "title")
  (Hval : Py.lookup d ty = Some (PFloat m e)) :
  (m <> 0%Z ->
   (forall st, loop_body repr_of st (k, PDict d) = Raise NotImplementedError)
   /\ (forall metadata, In (k, PDict d) metadata ->
       exists e', parse_properties repr_of metadata = Raise e'))
  /\ (m = 0%Z ->
      forall prop value,
        loop_body repr_of (prop, value) (k, PDict d)
        = Ok (Py.set prop k (PFloat 0 e), value)).
Proof.
  assert (Hstep : forall prop value,
             loop_body repr_of (prop, value) (k, PDict d)
             = if negb (m =? 0)%Z then Raise NotImplementedError
               else Ok (Py.set prop k (PFloat m e), value)).
  { intros prop value. unfold loop_body. cbn [Py.subscript].
    rewrite Hty. cbn [bind]. rewrite Hrel.
    apply String.eqb_neq in Htitle. rewrite Htitle.
    cbn [Py.get]. rewrite Hval. cbn [bind Py.truthy].
    now destruct (negb (m =? 0)%Z). }
  split.
  - intros Hm. apply Z.eqb_neq in Hm.
    assert (H : forall st, loop_body repr_of st (k, PDict d) = Raise NotImplementedError)
      by (intros [prop value]; rewrite Hstep, Hm; reflexivity).
    split; [exact H|].
    intros metadata Hin. apply (parse_properties_raises (k, PDict d)); [exact Hin|].
    intros st. rewrite H. eauto.
  - intros -> prop value. now rewrite Hstep.
Qed.

(** X12: the chain that resolves a dict takes the first of its four
    shapes that applies: a true [name] wins over everything; else a
    true [type] selects the value stored under the name it gives, and
    fails with a key error when there is none; else a true [prefix]
    with a true [number] give the two joined by an underscore; else a
    true [start] is taken. *)
Theorem resolve_dict_priority (c : pydict) (value : option pyval) :
  (Py.truthy (Py.dget c "name") = true ->
   resolve_dict repr_of c value = Ok (Some (Py.dget c "name")))
  /\ (Py.truthy (Py.dget c "name") = false ->
      forall t, Py.dget c "type" = PStr t -> t <> EmptyString ->
      resolve_dict repr_of c value
      = match Py.lookup c t with
        | Some x => Ok (Some x)
        | None => Raise KeyError
        end)
  /\ (Py.truthy (Py.dget c "name") = false ->
      Py.truthy (Py.dget c "type") = false ->
      Py.truthy (Py.dget c "prefix") = true ->
      Py.truthy (Py.dget c "number") = true ->
      resolve_dict repr_of c value
      = Ok (Some (PStr (fmt repr_of (Py.dget c "prefix") ++ "_"
                        ++ fmt repr_of (Py.dget c "number")))))
  /\ (Py.truthy (Py.dget c "name") = false ->
      Py.truthy (Py.dget c "type") = false ->
      Py.truthy (Py.dget c "prefix") && Py.truthy (Py.dget c "number") = false ->
      Py.truthy (Py.dget c "start") = true ->
      resolve_dict repr_of c value = Ok (Some (Py.dget c "start"))).
Proof.
  unfold resolve_dict. repeat split.
  - intros H. now rewrite H, (subscript_dget _ _ H).
  - intros H t Ht Hne. rewrite H.
    assert (Htrue : Py.truthy (Py.dget c "type") = true)
      by (rewrite Ht; now apply truthy_nonempty).
    rewrite Htrue, (subscript_dget _ _ Htrue), Ht. cbn [bind Py.subscript_any].
    now destruct (Py.lookup c t).
  - intros H1 H2 H3 H4.
    now rewrite H1, H2, H3, H4, (subscript_dget _ _ H3), (subscript_dget _ _ H4).
  - intros H1 H2 H3 H4.
    now rewrite H1, H2, H3, H4, (subscript_dget _ _ H4).
Qed.

End PropertiesMore.

Lemma parse_properties_known_keys_witness :
  Py.mem [("Status", Sample.select "Done")] "Status" = true
  \/ "Status" = "Title" \/ "Status" = "Summary" \/ "Status" = "lesedauer".
Proof.
  apply (parse_properties_known_keys Sample.no_repr
           [("Status", Sample.select "Done")]
           [("Status", PStr "Done"); ("lesedauer", PStr "ReadingTime")]
           "Status"); reflexivity.
Defined.

Lemma parse_properties_needs_type_witness :
  exists e,
    NotionParser.parse_properties Sample.no_repr
      [("Status", Sample.select "Done"); ("Broken", PDict [("id", PStr "x")])]
    = Raise e.
Proof.
  apply (parse_properties_needs_type Sample.no_repr
           [("Status", Sample.select "Done"); ("Broken", PDict [("id", PStr "x")])]
           "Broken" (PDict [("id", PStr "x")])).
  - right. left. reflexivity.
  - exists KeyError. reflexivity.
Defined.

Lemma parse_properties_float_witness :
  exists e,
    NotionParser.parse_properties Sample.no_repr
      [("Price", Sample2.float_number)] = Raise e.
Proof.
  refine (proj2 (proj1 (parse_properties_float Sample.no_repr
                          "Price" "number"
                          [("type", PStr "number"); ("number", PFloat 7 (-1))]
                          7 (-1) _ _ _ _) _) _ _).
  - reflexivity.
  - reflexivity.
  - discriminate.
  - reflexivity.
  - discriminate.
  - left. reflexivity.
Defined.

Section PropertiesKinds.
Import NotionParser.

Variable repr_of : pyval -> string.

Lemma title_values runs texts :
  Forall2 (fun r t => Py.lookup r "plain_text" = Some (PStr t)) runs texts ->
  for_each (fun c => t <- Py.subscript c "plain_text" ;; Py.enclose "'" t "'")
           (List.map PDict runs)
  = Ok (List.map Rendered.quoted_text texts).
Proof.
  induction 1 as [|r t runs texts Hr _ IH]; [reflexivity|].
  cbn [List.map for_each Py.subscript] in *. rewrite Hr. cbn [bind Py.enclose].
  now rewrite IH.
Qed.

(** X13: a property of type [title] is stored under the key [Title],
    whatever the property is called: as the one text between single
    quotes when the title has one run, and as the list of the quoted
    texts of its runs otherwise, the empty list for no run. *)
Theorem title_is_stored_as_Title (prop : pydict) (value : option pyval)
  (k : string) (d : pydict) (runs : list pydict) (texts : list string)
  (Hty : Py.lookup d "type" = Some (PStr "title"))
  (Htitle : Py.lookup d "title" = Some (PList (List.map PDict runs)))
  (Hruns : Forall2 (fun r t => Py.lookup r "plain_text" = Some (PStr t))
             runs texts) :
  loop_body repr_of (prop, value) (k, PDict d)
  = Ok (Py.set prop "Title"
          (match texts with
           | [t] => Rendered.quoted_text t
           | _ => PList (List.map Rendered.quoted_text texts)
           end), value).
Proof.
  unfold loop_body. cbn [Py.subscript]. rewrite Hty. cbn [bind].
  change (PyStr.contains "title" "relation") with false.
  change ("title" =? "title") with true. cbv iota.
  rewrite Htitle. cbn [bind Py.iterate]. rewrite (title_values _ _ Hruns).
  cbn [bind]. destruct texts as [|t [|t' texts]]; reflexivity.
Qed.

(** X14: a property whose type is [relation], or any text that occurs
    inside that word, since the test is [in] on a string, leaves the
    locals of the loop as they are; a mapping of such properties with no
    [Summary] among them parses to the single binding of [lesedauer]. *)
Theorem relation_is_skipped (metadata : pydict)
  (Hrel : Forall (fun kv => exists d ty,
                    snd kv = PDict d
                    /\ Py.lookup d "type" = Some (PStr ty)
                    /\ PyStr.contains ty "relation" = true) metadata)
  (Hsum : Py.lookup metadata "Summary" = None) :
  (forall st kv, In kv metadata -> loop_body repr_of st kv = Ok st)
  /\ parse_properties repr_of metadata
     = Ok [("lesedauer", PStr "ReadingTime")].
Proof.
  assert (Hstep : forall st kv, In kv metadata -> loop_body repr_of st kv = Ok st).
  { intros [prop value] [k v] Hin.
    rewrite Forall_forall in Hrel.
    destruct (Hrel _ Hin) as (d & ty & Hv & Hty & Hc). cbn [snd] in Hv. subst v.
    unfold loop_body. cbn [Py.subscript]. rewrite Hty. cbn [bind].
    now rewrite Hc. }
  split; [exact Hstep|].
  unfold parse_properties, summary. rewrite Hsum.
  assert (Hloop : forall st, loop repr_of st metadata = Ok st).
  { clear Hrel Hsum. induction metadata as [|kv items IH]; intros st; [reflexivity|].
    cbn [loop]. rewrite (Hstep st kv (or_introl eq_refl)). cbn [bind].
    apply IH. intros st' kv' Hin. apply Hstep. now right. }
  now rewrite Hloop.
Qed.

(** X15: when [parse_properties] returns for a mapping whose [Summary]
    property has rich text, and the content of the text of its first
    run is a text that is not empty, the result binds [Summary] to that
    content between single quotes. *)
Theorem summary_is_first_run (metadata prop : pydict) (s first text : pydict)
  (rest : list pyval) (content : string)
  (Hok : parse_properties repr_of metadata = Ok prop)
  (Hsum : Py.lookup metadata "Summary" = Some (PDict s))
  (Hrich : Py.lookup s "rich_text" = Some (PList (PDict first :: rest)))
  (Htext : Py.lookup first "text" = Some (PDict text))
  (Hcontent : Py.lookup text "content" = Some (PStr content))
  (Hne : content <> EmptyString) :
  Py.lookup prop "Summary" = Some (Rendered.quoted_text content).
Proof.
  unfold parse_properties in Hok.
  destruct (loop repr_of ([], None) metadata) as [st|]; [|discriminate].
  cbn [bind] in Hok. unfold summary in Hok.
  rewrite Hsum in Hok. cbn [Py.get bind] in Hok.
  rewrite Hrich in Hok. cbn [bind Py.get] in Hok.
  rewrite Htext in Hok. cbn [bind Py.get] in Hok.
  rewrite Hcontent in Hok. cbn [bind Py.truthy] in Hok.
  rewrite (truthy_nonempty _ Hne) in Hok. cbn [bind fmt] in Hok.
  injection Hok as <-.
  rewrite lookup_set_other by discriminate. apply lookup_set_same.
Qed.

Lemma names_of items :
  for_each (fun t => Py.get t "name" PNone) (List.map PDict items)
  = Ok (List.map (fun i => Py.dget i "name") items).
Proof.
  induction items as [|i items IH]; [reflexivity|].
  cbn [List.map for_each Py.get] in *. cbn [bind]. now rewrite IH.
Qed.

Lemma no_names items :
  Forall (fun i => Py.lookup i "name" = None) items ->
  filter (fun x => negb (Py.is_none x))
    (List.map (fun i => Py.dget i "name") items) = [].
Proof.
  induction 1 as [|i others Hi _ IH]; [reflexivity|].
  cbn [List.map filter]. unfold Py.dget at 1. now rewrite Hi.
Qed.

(** X16: a property whose typed value is a list of dicts is stored as
    the list of their names, in order, the missing names left out; so a
    list whose dicts have no name, as the runs of a rich text have
    none, is stored as the empty list. *)
Theorem list_is_stored_as_names (prop : pydict) (value : option pyval)
  (k ty : string) (d : pydict) (item : pydict) (items : list pydict)
  (Hty : Py.lookup d "type" = Some (PStr ty))
  (Hrel : PyStr.contains ty "relation" = false)
  (Htitle : ty <> "title")
  (Hval : Py.lookup d ty = Some (PList (List.map PDict (item :: items)))) :
  loop_body repr_of (prop, value) (k, PDict d)
  = Ok (Py.set prop k
          (PList (filter (fun x => negb (Py.is_none x))
                    (List.map (fun i => Py.dget i "name") (item :: items)))),
        value)
  /\ (Forall (fun i => Py.lookup i "name" = None) (item :: items) ->
      loop_body repr_of (prop, value) (k, PDict d)
      = Ok (Py.set prop k (PList []), value)).
Proof.
  assert (H : loop_body repr_of (prop, value) (k, PDict d)
              = Ok (Py.set prop k
                      (PList (filter (fun x => negb (Py.is_none x))
                                (List.map (fun i => Py.dget i "name") (item :: items)))),
                    value)).
  { unfold loop_body. cbn [Py.subscript]. rewrite Hty. cbn [bind].
    rewrite Hrel. apply String.eqb_neq in Htitle. rewrite Htitle.
    cbn [Py.get]. rewrite Hval. cbn [bind]. cbn [List.map Py.truthy negb].
    change (PDict item :: List.map PDict items) with (List.map PDict (item :: items)).
    now rewrite names_of. }
  split; [exact H|].
  intros Hnone. rewrite H. now rewrite (no_names _ Hnone).
Qed.

End PropertiesKinds.

Lemma title_is_stored_as_Title_witness :
  NotionParser.loop_body Sample.no_repr ([], None)
    ("Name", Sample2.title ["My Post"])
  = Ok ([("Title", PStr "'My Post'")], None).
Proof.
  apply (title_is_stored_as_Title Sample.no_repr [] None "Name"
           [("type", PStr "title");
            ("title", PList [PDict [("plain_text", PStr "My Post")]])]
           [[("plain_text", PStr "My Post")]] ["My Post"]).
  - reflexivity.
  - reflexivity.
  - repeat constructor.
Defined.

Lemma relation_is_skipped_witness :
  NotionParser.parse_properties Sample.no_repr
    [("Parent", Sample2.relation); ("Child", Sample2.relation)]
  = Ok [("lesedauer", PStr "ReadingTime")].
Proof.
  apply (relation_is_skipped Sample.no_repr
           [("Parent", Sample2.relation); ("Child", Sample2.relation)]).
  - repeat constructor;
      exists [("type", PStr "relation"); ("relation", PList [PDict [("id", PStr "r")]])],
             "relation"; repeat split.
  - reflexivity.
Defined.

Lemma summary_is_first_run_witness :
  Py.lookup [("Summary", PStr "'Short'"); ("lesedauer", PStr "ReadingTime")]
    "Summary" = Some (PStr "'Short'").
Proof.
  apply (summary_is_first_run Sample.no_repr
           [("Summary", Sample2.rich_text "Short")]
           [("Summary", PStr "'Short'"); ("lesedauer", PStr "ReadingTime")]
           [("type", PStr "rich_text");
            ("rich_text",
             PList [PDict [("text", PDict [("content", PStr "Short")]);
                           ("plain_text", PStr "Short")]])]
           [("text", PDict [("content", PStr "Short")]); ("plain_text", PStr "Short")]
           [("content", PStr "Short")] [] "Short");
    try reflexivity.
  discriminate.
Defined.

Lemma list_is_stored_as_names_witness :
  NotionParser.loop_body Sample.no_repr ([], None)
    ("Tags", Sample2.multi_select ["a"; "b"])
  = Ok ([("Tags", PList [PStr "a"; PStr "b"])], None).
Proof.
  apply (list_is_stored_as_names Sample.no_repr [] None "Tags" "multi_select"
           [("type", PStr "multi_select");
            ("multi_select", PList [PDict [("name", PStr "a")]; PDict [("name", PStr "b")]])]
           [("name", PStr "a")] [[("name", PStr "b")]]).
  - reflexivity.
  - reflexivity.
  - discriminate.
  - reflexivity.
Defined.

(** ** Page metadata *)

Section PageMetadata.
Import NotionPageMetadata.


(** X18: [init] on the dict of a page's metadata gives the metadata
    back. *)
Theorem init_asdict (m : t) : init (asdict m) = Ok m.
Proof. now destruct m. Qed.

End PageMetadata.

Section FetchPages.
Import NotionProvider.

Lemma add_responses_pages responses : forall acc ms,
  add_responses acc responses = Ok ms ->
  exists new,
    ms = (acc ++ new)%list
    /\ Forall2 (fun resp m => exists d, resp = PDict d
                                         /\ NotionPageMetadata.init d = Ok m)
         (filter Rendered.is_page responses) new
    /\ Forall (fun resp => exists d, resp = PDict d) responses.
Proof.
  induction responses as [|resp responses IH]; intros acc ms H.
  - injection H as <-. exists []. rewrite app_nil_r. repeat constructor.
  - cbn [add_responses] in H.
    destruct (add_response acc resp) as [acc'|] eqn:E; [|discriminate].
    cbn [bind] in H. destruct (IH _ _ H) as (new & -> & Hnew & Hall).
    unfold add_response in E. destruct resp as [| | | | |l|d]; try discriminate.
    cbn [filter Rendered.is_page].
    destruct (PyMore.eq_str (Py.dget d "object") "page").
    + destruct (NotionPageMetadata.init d) as [m|] eqn:Em; [|discriminate].
      cbn [bind] in E. injection E as <-.
      exists (m :: new). rewrite <- app_assoc. repeat split; eauto.
    + injection E as <-. exists new. repeat split; eauto.
Qed.

Lemma fetch_pages_from_pages pages : forall acc ms,
  fetch_pages_from acc pages = Ok ms ->
  exists new,
    ms = (acc ++ new)%list
    /\ Forall2 (fun resp m => exists d, resp = PDict d
                                         /\ NotionPageMetadata.init d = Ok m)
         (filter Rendered.is_page (List.concat pages)) new
    /\ Forall (fun resp => exists d, resp = PDict d) (List.concat pages).
Proof.
  induction pages as [|responses pages IH]; intros acc ms H.
  - injection H as <-. exists []. rewrite app_nil_r. repeat constructor.
  - cbn [fetch_pages_from] in H.
    destruct (add_responses acc responses) as [acc'|] eqn:E; [|discriminate].
    cbn [bind] in H.
    destruct (add_responses_pages _ _ _ E) as (new1 & -> & H1 & A1).
    destruct (IH _ _ H) as (new2 & -> & H2 & A2).
    exists (new1 ++ new2)%list. cbn [List.concat].
    rewrite filter_app, <- app_assoc. repeat split.
    + now apply Forall2_app.
    + now apply Forall_app.
Qed.

(** X19: when [async_fetch_pages_from_db] returns, every response was a
    dict, and the metadata it returns are those of the responses whose
    [object] is [page], one for each, in the order the responses came;
    the other responses are skipped. *)
Theorem fetched_pages_are_the_page_objects (pages : list (list pyval))
  (ms : list NotionPageMetadata.t)
  (Hok : async_fetch_pages_from_db pages = Ok ms) :
  Forall2 (fun resp m => exists d, resp = PDict d
                                    /\ NotionPageMetadata.init d = Ok m)
    (filter Rendered.is_page (List.concat pages)) ms
  /\ Forall (fun resp => exists d, resp = PDict d) (List.concat pages).
Proof.
  destruct (fetch_pages_from_pages _ _ _ Hok) as (new & -> & H & A).
  now split.
Qed.

Lemma feature_image_loop_app a : forall f b,
  feature_image_loop f (a ++ b) = feature_image_loop (feature_image_loop f a) b.
Proof. induction a as [|x a IH]; intros f b; [reflexivity | apply IH]. Qed.

Lemma feature_image_loop_none blobs : forall f,
  Forall (fun b => marks_feature_image b = false) blobs ->
  feature_image_loop f blobs = f.
Proof.
  induction blobs as [|b blobs IH]; intros f H; [reflexivity|].
  inversion H as [|? ? Hb Hbs]; subst. cbn [feature_image_loop].
  rewrite Hb. now apply IH.
Qed.

(** X20: the feature image is the file of the last blob that an
    annotation marks as feature image, since the [break] leaves the
    inner loop only; with no such blob it is the empty text. *)
Theorem feature_image_is_last_marked (before after blobs : list Base.Blob)
  (b : Base.Blob) :
  (marks_feature_image b = true ->
   Forall (fun x => marks_feature_image x = false) after ->
   feature_image_file (before ++ b :: after) = Base.file b)
  /\ (Forall (fun x => marks_feature_image x = false) blobs ->
      feature_image_file blobs = Some EmptyString).
Proof.
  unfold feature_image_file. split.
  - intros Hb Hafter. rewrite feature_image_loop_app.
    cbn [feature_image_loop]. rewrite Hb.
    now apply feature_image_loop_none.
  - intros Hnone. now apply feature_image_loop_none.
Qed.

End FetchPages.

Lemma fetched_pages_are_the_page_objects_witness :
  Forall2 (fun resp m => exists d, resp = PDict d
                                    /\ NotionPageMetadata.init d = Ok m)
    (filter Rendered.is_page
       (List.concat
          [[PDict (("object", PStr "page")
                   :: NotionPageMetadata.asdict Sample2.page_metadata)];
           [PDict [("object", PStr "database")]]]))
    [Sample2.page_metadata]
  /\ Forall (fun resp => exists d, resp = PDict d)
       (List.concat
          [[PDict (("object", PStr "page")
                   :: NotionPageMetadata.asdict Sample2.page_metadata)];
           [PDict [("object", PStr "database")]]]).
Proof.
  apply fetched_pages_are_the_page_objects. reflexivity.
Defined.

(** ** The formatter *)

Section Formatter.
Import Base Document HugoFormatter.

Variable repr_of : pyval -> string.
Variable path_exists : string -> bool.




Lemma formatter_result content out :
  async_process repr_of content = Ok out ->
  exists props,
    out = mkPage (Document.id content) (blobs content) props
                 (Some (header_blob repr_of props)) None.
Proof.
  unfold async_process.
  destruct (PyMore.pop (properties content) "# Status") as [popped|];
    [|discriminate].
  intros H. exists (sorted_data key_order (snd popped)).
  unfold bind in H. now injection H as <-.
Qed.

Lemma header_line_nonempty d :
  Forall (fun line => line <> EmptyString) (header_props repr_of d).
Proof.
  induction d as [|[k v] d IH]; [constructor|].
  cbn [header_props]. destruct (Py.truthy v); [|exact IH].
  constructor; [|exact IH].
  destruct k; discriminate.
Qed.

Lemma join_nonempty l lines :
  l <> EmptyString -> PyStr.join nl (l :: lines) <> EmptyString.
Proof.
  intros Hl. destruct lines as [|l' lines]; [exact Hl|].
  change (PyStr.join nl (l :: l' :: lines))
    with (l ++ nl ++ PyStr.join nl (l' :: lines)).
  destruct l; [contradiction | discriminate].
Qed.

(** X22: the header that the formatter makes renders to a line break and
    the front matter, the lines [key: value] of the true properties
    between two fences of three dashes; but when no property is true
    the text in the middle is empty and the header renders to the line
    break alone, without the fences. *)
Theorem header_renders_front_matter (content out : PageContent)
  (Hok : async_process repr_of content = Ok out) :
  (header_props repr_of (properties out) <> [] ->
   MarkdownStyler.process path_exists (header out) 0
   = Ok (nl ++ Rendered.front_matter (header_props repr_of (properties out))))
  /\ (header_props repr_of (properties out) = [] ->
      MarkdownStyler.process path_exists (header out) 0 = Ok nl).
Proof.
  destruct (formatter_result _ _ Hok) as [props ->].
  cbn [header properties].
  cbn [MarkdownStyler.process]. rewrite process_blob_unfold.
  unfold MarkdownStyler.process_some. cbn [type header_blob].
  change (MarkdownStyler.hasattr "paragraph") with true. cbn [negb].
  change (MarkdownStyler.getattr_call path_exists
            (MarkdownStyler.process path_exists) "paragraph"
            (header_blob repr_of props) 0)
    with (MarkdownStyler.paragraph (MarkdownStyler.process path_exists)
            (header_blob repr_of props) 0).
  unfold MarkdownStyler.paragraph. cbn [children header_blob rich_text bind app].
  unfold MarkdownStyler._style_content_with_annotation.
  split.
  - intros Hne.
    rewrite style_loop_nonempty.
    + cbn [List.map app PyStr.join]. unfold Rendered.front_matter.
      rewrite concat_fold. cbn [fold_right].
      change (Spec.styled (plain ("---" ++ nl))) with ("---" ++ nl).
      change (Spec.styled (plain (PyStr.join nl (header_props repr_of props))))
        with (PyStr.join nl (header_props repr_of props)).
      change (Spec.styled (plain (nl ++ "---" ++ nl))) with (nl ++ "---" ++ nl).
      now rewrite append_empty_r, !append_assoc.
    + repeat constructor; cbn [plain_text plain]; try discriminate.
      pose proof (header_line_nonempty props) as Hlines.
      destruct (header_props repr_of props) as [|l lines]; [contradiction|].
      inversion Hlines; subst. now apply join_nonempty.
  - intros ->. cbn [PyStr.join].
    rewrite style_loop_short_circuit; [reflexivity|].
    apply Exists_cons_tl, Exists_cons_hd. reflexivity.
Qed.

End Formatter.

Lemma header_renders_front_matter_witness :
  MarkdownStyler.process Sample.on_disk
    (Some (HugoFormatter.header_blob Sample.no_repr [("Title", PStr "'T'")])) 0
  = Ok (nl ++ "---" ++ nl ++ "Title: 'T'" ++ nl ++ "---" ++ nl)%string.
Proof.
  refine (proj1 (header_renders_front_matter Sample.no_repr Sample.on_disk
                   Sample2.page
                   (Document.mkPage "p1" [] [("Title", PStr "'T'")]
                      (Some (HugoFormatter.header_blob Sample.no_repr
                               [("Title", PStr "'T'")])) None) _) _).
  - reflexivity.
  - discriminate.
Defined.

(** ** The exporter *)

Section ContainsLemmas.

Lemma startswith_longer m : forall x y,
  PyStr.startswith m x = true -> PyStr.startswith m (x ++ y) = true.
Proof.
  induction m as [|c m IH]; intros x y H; [reflexivity|].
  destruct x as [|a x]; [discriminate|].
  cbn [append PyStr.startswith] in *. apply andb_prop in H as [Hc Hm].
  now rewrite Hc, (IH _ _ Hm).
Qed.

Lemma contains_unfold m s :
  PyStr.contains m s
  = PyStr.startswith m s
    || match s with
       | EmptyString => false
       | String _ s' => PyStr.contains m s'
       end.
Proof. now destruct s. Qed.

Lemma contains_longer m x : forall y,
  PyStr.contains m x = true -> PyStr.contains m (x ++ y) = true.
Proof.
  induction x as [|a x IH]; intros y H.
  - rewrite contains_unfold in H. cbn in H. rewrite orb_false_r in H.
    rewrite contains_unfold. now rewrite (startswith_longer _ _ y H).
  - rewrite contains_unfold in H. apply orb_prop in H as [H|H].
    + rewrite contains_unfold. now rewrite (startswith_longer _ _ y H).
    + cbn [append]. rewrite contains_unfold, (IH _ H). apply orb_true_r.
Qed.

Lemma contains_later m x : forall y,
  PyStr.contains m y = true -> PyStr.contains m (x ++ y) = true.
Proof.
  induction x as [|a x IH]; intros y H; [exact H|].
  cbn [append]. rewrite contains_unfold, (IH _ H). apply orb_true_r.
Qed.

Lemma lstrip_suffix s : exists pre, s = pre ++ PyStr.lstrip s.
Proof.
  induction s as [|c s [pre IH]]; [now exists EmptyString|].
  cbn [PyStr.lstrip]. destruct (PyStr.isspace c).
  - exists (String c pre). cbn [append]. now rewrite <- IH.
  - now exists EmptyString.
Qed.

Lemma rstrip_prefix s : exists post, s = PyStr.rstrip s ++ post.
Proof.
  induction s as [|c s [post IH]]; [now exists EmptyString|].
  cbn [PyStr.rstrip]. destruct (PyStr.rstrip s) as [|r0 r] eqn:E.
  - destruct (PyStr.isspace c).
    + now exists (String c s).
    + exists s. reflexivity.
  - exists post. cbn [append] in *. now f_equal.
Qed.

Lemma contains_strip m s :
  PyStr.contains m (PyStr.strip s) = true -> PyStr.contains m s = true.
Proof.
  unfold PyStr.strip. intros H.
  destruct (lstrip_suffix s) as [pre Hpre].
  destruct (rstrip_prefix (PyStr.lstrip s)) as [post Hpost].
  rewrite Hpre. apply contains_later. rewrite Hpost. now apply contains_longer.
Qed.

Lemma startswith_before_break m : forall a b,
  Spec.free_of ch_nl m = true ->
  PyStr.startswith m (a ++ String ch_nl b) = true ->
  PyStr.startswith m a = true.
Proof.
  induction m as [|c m IH]; intros a b Hfree H; [reflexivity|].
  cbn [Spec.free_of PyStr.forallb] in Hfree.
  apply andb_prop in Hfree as [Hc Hm]. apply negb_true_iff in Hc.
  destruct a as [|x a]; cbn [append PyStr.startswith] in *.
  - rewrite Hc in H. discriminate.
  - apply andb_prop in H as [Hx Hrest]. rewrite Hx. now apply (IH a b).
Qed.

Lemma contains_across_break m a : forall b,
  m <> EmptyString -> Spec.free_of ch_nl m = true ->
  PyStr.contains m (a ++ String ch_nl b) = true ->
  PyStr.contains m a = true \/ PyStr.contains m b = true.
Proof.
  intros b Hne Hfree. induction a as [|x a IH]; intros H.
  - cbn [append] in H. rewrite contains_unfold in H.
    apply orb_prop in H as [H|H]; [|now right].
    apply (startswith_before_break m EmptyString b Hfree) in H.
    destruct m; [contradiction | discriminate].
  - cbn [append] in H. rewrite contains_unfold in H.
    apply orb_prop in H as [H|H].
    + left. rewrite contains_unfold.
      now rewrite (startswith_before_break m (String x a) b Hfree H).
    + destruct (IH H) as [Ha|Hb]; [left | now right].
      rewrite contains_unfold, Ha. apply orb_true_r.
Qed.

Lemma contains_in_join m l :
  m <> EmptyString -> Spec.free_of ch_nl m = true ->
  PyStr.contains m (PyStr.join nl l) = true ->
  Exists (fun t => PyStr.contains m t = true) l.
Proof.
  intros Hne Hfree. induction l as [|t l IH]; intros H.
  - cbn in H. destruct m; [contradiction | discriminate].
  - destruct l as [|t' l]; [now left|].
    change (PyStr.join nl (t :: t' :: l))
      with (t ++ String ch_nl (PyStr.join nl (t' :: l))) in H.
    destruct (contains_across_break _ _ _ Hne Hfree H) as [Ht|Hl];
      [now left | right; now apply IH].
Qed.

Lemma removed_lines lines keyword :
  Forall (fun t => PyStr.contains keyword t = false)
    (MarkdownExporter.remove_line_with_caption lines keyword).
Proof.
  unfold MarkdownExporter.remove_line_with_caption.
  induction lines as [|t lines IH]; [constructor|].
  cbn [filter]. destruct (PyStr.contains keyword t) eqn:E; cbn [negb];
    [exact IH | now constructor].
Qed.

End ContainsLemmas.

Section Exporter.
Import Base Document MarkdownExporter.

Variable FS : Type.
Variable path_exists : FS -> string -> bool.
Variable makedirs : FS -> string -> option FS.
Variable copy : FS -> string -> string -> option (string * FS).
Variable config : Config.

Lemma and_then_returns {A B : Type} (o : outcome A) (k : A -> outcome B) b :
  and_then o k = Returns b -> exists a, o = Returns a /\ k a = Returns b.
Proof. destruct o; cbn; intros H; try discriminate. eauto. Qed.

Lemma lift_returns {A : Type} (r : result A) a :
  lift r = Returns a -> r = Ok a.
Proof. destruct r; cbn; congruence. Qed.

(** X23: the text that [async_process] writes for a page without footer
    has no [caption] attribute of the feature image in it: every
    rendered block with that attribute, the header included, is dropped
    before the blocks are joined. *)
Theorem feature_caption_never_written (content : PageContent) (fs fs' : FS)
  (path text : string)
  (Hret : async_process FS path_exists makedirs copy config content fs
          = Returns (path, text, fs'))
  (Hfooter : footer content = None) :
  PyStr.contains FEATURE_CAPTION text = false.
Proof.
  unfold async_process in Hret.
  apply and_then_returns in Hret as (name & _ & Hret).
  destruct (makedirs fs _) as [fs1|]; [|discriminate].
  apply and_then_returns in Hret as (header_text & _ & Hret).
  apply and_then_returns in Hret as (r & _ & Hret).
  apply and_then_returns in Hret as (footer_text & Hf & Hret).
  rewrite Hfooter in Hf. apply lift_returns in Hf. injection Hf as <-.
  injection Hret as _ <- _.
  destruct (PyStr.contains FEATURE_CAPTION _) eqn:E; [|reflexivity].
  apply contains_strip, contains_in_join in E; [|discriminate|reflexivity].
  apply Exists_app in E as [E|E].
  - pose proof (removed_lines (fst r) FEATURE_CAPTION) as Hall.
    rewrite Forall_forall in Hall. apply Exists_exists in E as (t & Hin & Ht).
    rewrite (Hall _ Hin) in Ht. discriminate.
  - inversion E as [? ? Ht|? ? Ht]; subst; [discriminate Ht | inversion Ht].
Qed.

Lemma export_blobs_stops dir b blobs :
  In b blobs ->
  (forall fs, Rendered.returned (export_blob FS path_exists copy dir fs b) = false) ->
  forall fs texts,
    Rendered.returned (export_blobs FS path_exists copy dir fs texts blobs) = false.
Proof.
  intros Hin Hb. induction blobs as [|x blobs IH]; [contradiction|].
  intros fs texts. cbn [export_blobs].
  destruct Hin as [->|Hin].
  - specialize (Hb fs). destruct (export_blob _ _ _ _ _ _); try reflexivity.
    discriminate Hb.
  - destruct (export_blob _ _ _ _ _ _); try reflexivity. cbn [and_then].
    now apply IH.
Qed.

(** X24: [async_process] does not come back for a page that has, among
    its blobs, an image without a file: the assertion of the image
    renderer ends the export of the whole page. *)
Theorem image_without_file_stops_export (content : PageContent) (fs : FS)
  (b : Blob)
  (Hin : In b (blobs content))
  (Htype : type b = "image")
  (Hfile : match file b with Some f => PyStr.truthy f | None => false end = false) :
  Rendered.returned
    (async_process FS path_exists makedirs copy config content fs) = false.
Proof.
  assert (Himg : forall pe, MarkdownStyler.process pe (Some b) 0
                            = Raise AssertionError).
  { intros pe. cbn [MarkdownStyler.process]. rewrite process_blob_unfold.
    unfold MarkdownStyler.process_some. rewrite Htype.
    change (MarkdownStyler.hasattr "image") with true. cbn [negb].
    change (MarkdownStyler.getattr_call pe (MarkdownStyler.process pe)
              "image" b 0)
      with (MarkdownStyler.image pe b 0).
    unfold MarkdownStyler.image.
    destruct (file b) as [f|]; [|reflexivity]. now rewrite Hfile. }
  assert (Hb : forall dir fs0,
             Rendered.returned (export_blob FS path_exists copy dir fs0 b) = false).
  { intros dir fs0. unfold export_blob, render.
    destruct (file b) as [f|]; [rewrite Hfile, andb_false_r|];
      now rewrite Himg. }
  unfold async_process.
  destruct (lift (post_dir_name config content)) as [name| |]; try reflexivity.
  cbn [and_then]. destruct (makedirs fs _) as [fs1|]; [|reflexivity].
  destruct (lift (MarkdownStyler.process _ (header content) 0))
    as [header_text| |]; try reflexivity.
  cbn [and_then].
  match goal with
  | |- context [export_blobs _ _ _ ?dir ?f ?t _] =>
      pose proof (export_blobs_stops dir _ _ Hin (Hb dir) f t) as Hstop
  end.
  destruct (export_blobs _ _ _ _ _ _ _); try reflexivity. discriminate Hstop.
Qed.

End Exporter.

Lemma feature_caption_never_written_witness :
  exists path text fs',
    MarkdownExporter.async_process Sample2.paths Sample2.path_in
      Sample2.add_dir Sample2.copy_into Sample2.config
      (Sample2.page_of
         [Sample.image_of "download/img_1.png" "Cap";
          Sample.image_of "download/img_2.png" "featureimage"])
      ["download/img_1.png"; "download/img_2.png"]
    = MarkdownExporter.Returns (path, text, fs')
    /\ PyStr.contains MarkdownExporter.FEATURE_CAPTION text = false.
Proof.
  eexists. eexists. eexists.
  refine ((fun H => conj H (feature_caption_never_written Sample2.paths
                              Sample2.path_in Sample2.add_dir Sample2.copy_into
                              Sample2.config _ _ _ _ _ H _)) _).
  - reflexivity.
  - vm_compute. reflexivity.
Defined.

Lemma image_without_file_stops_export_witness :
  Rendered.returned
    (MarkdownExporter.async_process Sample2.paths Sample2.path_in
       Sample2.add_dir Sample2.copy_into Sample2.config
       (Sample2.page_of [Sample2.block "image" "Cap" None]) []) = false.
Proof.
  apply (image_without_file_stops_export Sample2.paths Sample2.path_in
           Sample2.add_dir Sample2.copy_into Sample2.config
           (Sample2.page_of [Sample2.block "image" "Cap" None]) []
           (Sample2.block "image" "Cap" None)).
  - left. reflexivity.
  - reflexivity.
  - reflexivity.
Defined.

(** ** Where a copied image ends up *)

Section Relocation.
Import Base Document MarkdownExporter.

Variable FS : Type.
Variable path_exists : FS -> string -> bool.
Variable copy : FS -> string -> string -> option (string * FS).
Variable config : Config.

Lemma free_no_leading_slash s :
  Spec.free_of "/" s = true -> PyStr.startswith "/" s = false.
Proof.
  destruct s as [|c s]; [reflexivity|].
  cbn [Spec.free_of PyStr.forallb PyStr.startswith]. intros H.
  apply andb_prop in H as [Hc _]. apply negb_true_iff in Hc.
  now rewrite Ascii.eqb_sym, Hc.
Qed.

Lemma free_no_trailing_slash s :
  Spec.free_of "/" s = true -> PyMore.endswith_char "/" s = false.
Proof.
  induction s as [|c s IH]; [reflexivity|].
  cbn [Spec.free_of PyStr.forallb]. intros H.
  apply andb_prop in H as [Hc Hs]. apply negb_true_iff in Hc.
  cbn [PyMore.endswith_char]. destruct s; [exact Hc | now apply IH].
Qed.

Lemma endswith_append c a b :
  b <> EmptyString ->
  PyMore.endswith_char c (a ++ b) = PyMore.endswith_char c b.
Proof.
  intros Hb. induction a as [|x a IH]; [reflexivity|].
  cbn [append PyMore.endswith_char].
  destruct (a ++ b) eqn:E; [|exact IH].
  destruct a; [cbn in E; contradiction | discriminate].
Qed.

Lemma free_append c a b :
  Spec.free_of c (a ++ b) = Spec.free_of c a && Spec.free_of c b.
Proof. apply forallb_append. Qed.

Lemma basename_free p : Spec.free_of "/" (PosixPath.basename p) = true.
Proof.
  induction p as [|c p IH]; [reflexivity|].
  cbn [PosixPath.basename].
  destruct (PyStr.forallb _ p) eqn:E; [|exact IH].
  destruct (Ascii.eqb c "/") eqn:Ec; [exact E|].
  cbn [Spec.free_of PyStr.forallb]. now rewrite Ec, E.
Qed.

(** The images directory of a post and a path in it, for a parent
    directory of one segment and a name of one segment. *)
Lemma post_images_dir_path name base :
  parent_dir config <> EmptyString ->
  Spec.free_of "/" (parent_dir config) = true ->
  name <> EmptyString -> Spec.free_of "/" name = true ->
  Spec.free_of "/" base = true ->
  PosixPath.join (post_images_dir_of config name) [base]
  = parent_dir config ++ String "/" (name ++ String "/"
      ((name ++ "_images") ++ String "/" base)).
Proof.
  intros Hp Hpf Hn Hnf Hb.
  unfold post_images_dir_of, PosixPath.join, POST_IMAGES_DIR.
  cbn [PosixPath.join_from].
  rewrite (free_no_leading_slash _ Hnf), (truthy_nonempty _ Hp),
    (free_no_trailing_slash _ Hpf).
  cbn [negb orb].
  assert (H1 : PyStr.startswith "/" (name ++ "_" ++ "images/") = false).
  { destruct name as [|c name]; [contradiction|].
    cbn [Spec.free_of PyStr.forallb] in Hnf. apply andb_prop in Hnf as [Hc _].
    apply negb_true_iff in Hc.
    cbn [append PyStr.startswith]. now rewrite Ascii.eqb_sym, Hc. }
  rewrite H1.
  assert (H2 : PyStr.truthy (parent_dir config ++ "/" ++ name) = true)
    by (destruct (parent_dir config); [contradiction | reflexivity]).
  rewrite H2. cbn [negb orb].
  rewrite (endswith_append "/" (parent_dir config) ("/" ++ name)) by discriminate.
  rewrite (endswith_append "/" "/" name Hn), (free_no_trailing_slash _ Hnf).
  rewrite (free_no_leading_slash _ Hb).
  match goal with
  | |- (if negb (PyStr.truthy ?d) || PyMore.endswith_char "/" ?d then _ else _) = _ =>
      assert (H3 : PyMore.endswith_char "/" d = true)
  end.
  { rewrite endswith_append by discriminate.
    rewrite endswith_append by (destruct name; [contradiction | discriminate]).
    now rewrite endswith_append by discriminate. }
  rewrite H3, orb_true_r.
  rewrite !append_assoc. cbn [append]. reflexivity.
Qed.

(** X25: an image blob of the page whose file exists is rendered from
    its copy.  With a parent directory of one segment and a post name
    that is not empty after sanitising, and the copy at the path that
    [shutil.copy] returns for a file copied into the images directory
    of the post, the [src] of the shortcode is [images/], the name of
    that directory and the base name of the file: the two segments
    that the renderer drops are the parent and the post directory. *)
Theorem relocated_image_src (fs fs' : FS) (b : Blob) (f raw : string)
  (Htype : type b = "image")
  (Hfile : file b = Some f) (Hf : f <> EmptyString)
  (Hexists : path_exists fs f = true)
  (Hparent : parent_dir config <> EmptyString)
  (Hsegment : Spec.free_of "/" (parent_dir config) = true)
  (Hname : sanitize_path raw <> EmptyString)
  (Hcopy : copy fs f (post_images_dir_of config (sanitize_path raw))
           = Some (PosixPath.join (post_images_dir_of config (sanitize_path raw))
                     [PosixPath.basename f], fs'))
  (Hthere : path_exists fs'
              (PosixPath.join (post_images_dir_of config (sanitize_path raw))
                 [PosixPath.basename f]) = true) :
  export_blob FS path_exists copy
    (post_images_dir_of config (sanitize_path raw)) fs b
  = Returns
      (nl ++ Spec.img_shortcode
               ("images/" ++ sanitize_path raw ++ "_images/"
                ++ PosixPath.basename f)
               (fst (MarkdownStyler.parse_caption
                       (MarkdownStyler._style_content_with_annotation
                          (rich_text b))))
               (snd (MarkdownStyler.parse_caption
                       (MarkdownStyler._style_content_with_annotation
                          (rich_text b)))),
       fs').
Proof.
  pose proof (sanitize_path_no_slash raw) as Hfree.
  pose proof (basename_free f) as Hbase.
  pose proof (post_images_dir_path (sanitize_path raw) (PosixPath.basename f)
                Hparent Hsegment Hname Hfree Hbase) as Hpath.
  unfold export_blob. rewrite Hfile.
  unfold copies_file. rewrite Htype.
  change ("image" =? "image") with true. cbn [orb andb].
  rewrite (truthy_nonempty _ Hf), Hexists, Hcopy. cbn [andb].
  unfold render. cbn [MarkdownStyler.process].
  rewrite process_blob_unfold. unfold MarkdownStyler.process_some.
  cbn [type].
  change (MarkdownStyler.hasattr "image") with true. cbn [negb].
  match goal with
  | |- context [MarkdownStyler.getattr_call ?pe ?pr "image" ?bl 0] =>
      change (MarkdownStyler.getattr_call pe pr "image" bl 0)
        with (MarkdownStyler.image pe bl 0)
  end.
  unfold MarkdownStyler.image. cbn [file rich_text].
  rewrite Hthere, Hpath.
  assert (Htruthy : PyStr.truthy
                      (parent_dir config ++ String "/" (sanitize_path raw ++ String "/"
                         ((sanitize_path raw ++ "_images") ++ String "/"
                            (PosixPath.basename f)))) = true)
    by (destruct (parent_dir config); [contradiction | reflexivity]).
  rewrite Htruthy. cbn [andb assert bind].
  rewrite (split_at_first "/" _ _ Hsegment), (split_at_first "/" _ _ Hfree).
  rewrite split_at_first
    by (unfold Spec.free_of in *; rewrite forallb_append, Hfree; reflexivity).
  rewrite (split_free "/" _ Hbase).
  cbn [skipn app PyStr.join].
  destruct (MarkdownStyler.parse_caption _) as [cap alt]. cbn [bind lift and_then fst snd].
  unfold Spec.img_shortcode. do 3 f_equal.
  rewrite !append_assoc. reflexivity.
Qed.

End Relocation.

Lemma relocated_image_src_witness :
  MarkdownExporter.export_blob Sample2.paths Sample2.path_in Sample2.copy_into
    (MarkdownExporter.post_images_dir_of Sample2.config (sanitize_path "My Post"))
    ["download/img_1.png"] (Sample.image_of "download/img_1.png" "Cap")
  = MarkdownExporter.Returns
      (nl ++ Spec.img_shortcode "images/my_post_images/img_1.png" "Cap" EmptyString,
       ["out/my_post/my_post_images/img_1.png"; "download/img_1.png"])%string.
Proof.
  apply (relocated_image_src Sample2.paths Sample2.path_in Sample2.copy_into
           Sample2.config ["download/img_1.png"]
           ["out/my_post/my_post_images/img_1.png"; "download/img_1.png"]
           (Sample.image_of "download/img_1.png" "Cap")
           "download/img_1.png" "My Post");
    try reflexivity; discriminate.
Defined.

(** ** The name of the post directory *)

Section PostName.
Import Base Document MarkdownExporter.

Variable FS : Type.
Variable path_exists : FS -> string -> bool.
Variable makedirs : FS -> string -> option FS.
Variable copy : FS -> string -> string -> option (string * FS).

(** X26: when a property is configured to name the post, the export of
    a page raises the assertion error, before it touches the file
    system, unless that property is a text that is not empty: a missing
    property, an empty one, and also a title of several runs, which the
    parser stores as a list, all stop the export. *)
Theorem post_name_must_be_text (parent key : string) (content : PageContent)
  (fs : FS)
  (Hkey : key <> EmptyString)
  (Hname : forall s, s <> EmptyString ->
                     Py.dget (properties content) key <> PStr s) :
  async_process FS path_exists makedirs copy (mkConfig parent (Some key))
    content fs
  = Raises AssertionError.
Proof.
  unfold async_process, post_dir_name. cbn [post_name_property_key].
  rewrite (truthy_nonempty _ Hkey).
  destruct (Py.truthy (Py.dget (properties content) key)) eqn:Et;
    [|reflexivity].
  cbn [assert bind]. rewrite (subscript_dget _ _ Et). cbn [bind].
  destruct (Py.dget (properties content) key) as [| | | |s| |] eqn:Ed;
    try reflexivity.
  exfalso. apply (Hname s); [|reflexivity].
  destruct s; [discriminate Et | discriminate].
Qed.

End PostName.

Lemma post_name_must_be_text_witness :
  MarkdownExporter.async_process Sample2.paths Sample2.path_in Sample2.add_dir
    Sample2.copy_into (MarkdownExporter.mkConfig "out" (Some "Title"))
    (Document.mkPage "p1" []
       [("Title", PList [PStr "'My'"; PStr "' Post'"])] None None) []
  = MarkdownExporter.Raises AssertionError.
Proof.
  apply (post_name_must_be_text Sample2.paths Sample2.path_in Sample2.add_dir
           Sample2.copy_into "out" "Title").
  - discriminate.
  - intros s _. discriminate.
Defined.

(** ** Quotes and code blocks *)

Section QuotesAndCode.
Import Base MarkdownStyler.

Variable path_exists : string -> bool.

(** X27: a quote always renders, whatever its children are: it quotes
    the styled text of each child and never looks at the variant of a
    child or at the children of a child. *)
Theorem quote_ignores_child_variants (b : Blob) (indent : Z)
  (Htype : type b = "quote") :
  process path_exists (Some b) indent
  = Ok (nl ++ PyStr.join (nl ++ ">" ++ nl)
                (("> " ++ _style_content_with_annotation (rich_text b))
                 :: List.map
                      (fun c => "> " ++ _style_content_with_annotation (rich_text c))
                      (elements (children b)))).
Proof.
  cbn [process]. rewrite process_blob_unfold. unfold process_some.
  rewrite Htype. change (hasattr "quote") with true. cbn [negb].
  change (getattr_call path_exists (process path_exists) "quote" b indent)
    with (quote b indent).
  unfold quote. now destruct (children b) as [[|k ks]|].
Qed.

(** X28: a code block with no language and no children renders to a
    fence that carries the word [None], the way an f-string prints a
    missing value, then the text and the closing fence. *)
Theorem code_without_language (b : Blob) (indent : Z)
  (Htype : type b = "code")
  (Hlang : language b = None)
  (Hleaf : truthy_list (children b) = false) :
  process path_exists (Some b) indent
  = Ok (nl ++ "```None" ++ nl
        ++ _style_content_with_annotation (rich_text b) ++ nl ++ "```").
Proof.
  cbn [process]. rewrite process_blob_unfold. unfold process_some.
  rewrite Htype. change (hasattr "code") with true. cbn [negb].
  change (getattr_call path_exists (process path_exists) "code" b indent)
    with (MarkdownStyler.code (process path_exists) b indent).
  unfold MarkdownStyler.code, paragraph. rewrite Hlang.
  destruct (children b) as [[|k ks]|]; try discriminate; reflexivity.
Qed.

End QuotesAndCode.

Lemma quote_ignores_child_variants_witness :
  MarkdownStyler.process Sample.on_disk
    (Some (Sample2.block "quote" "said" (Some [Sample.toggle]))) 0
  = Ok (nl ++ "> said" ++ nl ++ ">" ++ nl ++ "> more")%string.
Proof.
  apply (quote_ignores_child_variants Sample.on_disk
           (Sample2.block "quote" "said" (Some [Sample.toggle])) 0).
  reflexivity.
Defined.

Lemma code_without_language_witness :
  MarkdownStyler.process Sample.on_disk
    (Some (Sample2.block "code" "x = 1" None)) 0
  = Ok (nl ++ "```None" ++ nl ++ "x = 1" ++ nl ++ "```")%string.
Proof.
  apply (code_without_language Sample.on_disk
           (Sample2.block "code" "x = 1" None) 0); reflexivity.
Defined.

(** ** Bulleted items nested to any depth *)

Section BulletTrees.
Import Base MarkdownStyler.

Variable path_exists : string -> bool.

Lemma join_after x ys :
  PyStr.join nl (x :: List.map (fun y => nl ++ y) ys)
  = x ++ fold_right (fun y acc => nl ++ nl ++ y ++ acc) EmptyString ys.
Proof.
  revert x. induction ys as [|y ys IH]; intros x.
  - cbn. now rewrite append_empty_r.
  - cbn [List.map fold_right].
    change (PyStr.join nl (x :: (nl ++ y) :: List.map (fun y => nl ++ y) ys))
      with (x ++ nl ++ PyStr.join nl ((nl ++ y) :: List.map (fun y => nl ++ y) ys)).
    rewrite IH, !append_assoc. reflexivity.
Qed.

(** X6: a tree of bulleted items of any depth renders to the lines of
    its items in the order of the tree, each after an empty line, the
    line of an item four blanks further in than the line of its
    parent. *)
Theorem bullet_tree_renders (b : Blob) :
  Rendered.all_bullets b ->
  forall indent,
    process path_exists (Some b) indent
    = Ok (nl ++ Rendered.bullet_tree b indent).
Proof.
  revert b. fix IH 1. intros b Hall indent.
  cbn [process]. rewrite process_blob_unfold. unfold process_some.
  destruct b as [i rt ty kids f lang w cells chk u].
  cbn [Rendered.all_bullets type children] in Hall. destruct Hall as [Hty Hkids].
  cbn [type]. rewrite Hty.
  change (hasattr "bulleted_list_item") with true. cbn [negb].
  match goal with
  | |- context [getattr_call ?pe ?pr "bulleted_list_item" ?bl ?i] =>
      change (getattr_call pe pr "bulleted_list_item" bl i)
        with (_list_item pr bl "-" i)
  end.
  unfold _list_item. cbn [children rich_text Rendered.bullet_tree].
  destruct kids as [kids|]; [|cbn; now rewrite append_empty_r].
  assert (Hrec : for_each (fun child_blob =>
                             process path_exists (Some child_blob) (indent + INC_INDENT))
                   kids
                 = Ok (List.map (fun k => nl ++ Rendered.bullet_tree k (indent + 4)) kids)).
  { clear - IH Hkids. induction kids as [|k kids IHk]; [reflexivity|].
    destruct Hkids as [Hk Hrest].
    cbn [for_each List.map]. rewrite (IH k Hk), (IHk Hrest). reflexivity. }
  destruct kids as [|k kids]; [cbn; now rewrite append_empty_r|].
  rewrite Hrec. cbn [bind app].
  rewrite <- (map_map (fun k0 => Rendered.bullet_tree k0 (indent + 4))
                (fun y => nl ++ y)).
  rewrite join_after. cbn [List.map fold_right].
  assert (Htail : forall l,
             fold_right (fun y acc => nl ++ nl ++ y ++ acc) EmptyString
               (List.map (fun k0 => Rendered.bullet_tree k0 (indent + 4)) l)
             = (fix below (l : list Blob) : string :=
                  match l with
                  | [] => EmptyString
                  | k0 :: l' =>
                      nl ++ nl ++ Rendered.bullet_tree k0 (indent + 4) ++ below l'
                  end) l).
  { induction l as [|x l IHl]; [reflexivity|].
    cbn [List.map fold_right]. now rewrite IHl. }
  rewrite Htail. reflexivity.
Qed.

End BulletTrees.

Lemma bullet_tree_renders_witness :
  MarkdownStyler.process Sample.on_disk
    (Some (Sample2.bullet "top"
             [Sample2.bullet "one" [Sample2.bullet "deep" []];
              Sample2.bullet "two" []])) 0
  = Ok (nl ++ "- top" ++ nl ++ nl ++ "    - one" ++ nl ++ nl
        ++ "        - deep" ++ nl ++ nl ++ "    - two")%string.
Proof.
  apply (bullet_tree_renders Sample.on_disk
           (Sample2.bullet "top"
              [Sample2.bullet "one" [Sample2.bullet "deep" []];
               Sample2.bullet "two" []])).
  repeat split.
Defined.
